(** * copilot-cli: the pipeline deployment command and the workload stack

    A shallow embedding of
    - [internal/pkg/cli/pipeline_deploy.go] (module [Cli]): the
      [deployPipelineOpts] command, the interfaces it holds and the calls it
      makes on them, in order;
    - package [stack] (module [Stack]): the stack name and the template of a
      load-balanced web service, as [TestLoadBalancedWebService_StackName] and
      [TestLoadBalancedWebService_Template] fix them;
    - [internal/pkg/cli/job_init.go] (modules [JobInit] and [Deploy]): the
      [initJobOpts] command and the [deployOpts] command that follows it in
      the same file, over the command monad of module [Cmd].

    Go values are modelled as the code has them: a [string] is a sequence of
    bytes (so [String.length] is Go's [len]), an [error] is a chain of wrapped
    errors walked by [errors.As], a [map[string]interface{}] is a [gmap], and a
    method that returns [(T, error)] returns a [result]. *)

From Stdlib Require Import ZArith Lia List Bool.
From stdpp Require Import base strings gmap list.
Import ListNotations.

Local Open Scope string_scope.
Local Open Scope list_scope.

(** ** Go errors *)

Module GoErr.

(** The named error types the code tests for with [errors.As]. *)
Inductive errType : Type :=
| TErrStackAlreadyExists   (* *cloudformation.ErrStackAlreadyExists *)
| TErrAddonsNotFound       (* *addon.ErrAddonsNotFound *)
| TErrOther (tyName : string).

#[global] Instance errType_eq_dec : EqDecision errType.
Proof. solve_decision. Defined.

(** An [error] value: a value of a named type with its [Error()] text, a
    plain [errors.New]/[fmt.Errorf] text, or [fmt.Errorf("ctx: %w", inner)]. *)
Inductive error : Type :=
| Typed (t : errType) (msg : string)
| New (msg : string)
| Wrap (ctx : string) (inner : error).

#[global] Instance error_eq_dec : EqDecision error.
Proof. solve_decision. Defined.

(** [err.Error()] *)
Fixpoint Error (e : error) : string :=
  match e with
  | Typed _ msg => msg
  | New msg => msg
  | Wrap ctx inner => ctx +:+ ": " +:+ Error inner
  end.

(** [errors.As(err, &target)] for a target of the named type [t]: the chain
    is walked through [Unwrap] until a value of that type is found. *)
Fixpoint errorsAs (t : errType) (e : error) : bool :=
  match e with
  | Typed t' _ => bool_decide (t = t')
  | New _ => false
  | Wrap _ inner => errorsAs t inner
  end.

(** A call that returns [(T, error)]. *)
Inductive result (A : Type) : Type :=
| Ok (a : A)
| Err (e : error).
#[global] Arguments Ok {A} a.
#[global] Arguments Err {A} e.

End GoErr.

(** ** Package [stack]: the load-balanced web service *)

Module Stack.
Import GoErr.

(** [v, err := f(); if err != nil { return wrap(err) }] on a [result]. *)
Definition andThen {A B} (r : result A) (wrap : error -> error)
    (k : A -> result B) : result B :=
  match r with
  | Ok a => k a
  | Err e => Err (wrap e)
  end.

(** The addons of a workload: [Template() (string, error)] and
    [Parameters() (string, error)] ([mockAddons] in the tests). *)
Record templater : Type :=
  { addons_Template : result string;
    addons_Parameters : result string }.

(** [wkld] *)
Record wkld : Type :=
  { name : string;
    env : string;
    app : string;
    addons : templater }.

(** CloudFormation's limit on the length of a stack name. *)
Definition maxStackNameLen : nat := 128.

(** Modelled from the spec: the body of [StackName], the method of [wkld]
    that [LoadBalancedWebService] inherits, is missing; section 3 of the spec
    says the stack name is derived deterministically from the application,
    environment and workload names, and [TestLoadBalancedWebService_StackName]
    fixes how: the three names joined with hyphens, cut to its first 128 bytes
    when longer (test case "longer than 128 characters"). *)
Definition StackName (w : wkld) : string :=
  let stackName := app w +:+ "-" +:+ env w +:+ "-" +:+ name w in
  if Nat.ltb maxStackNameLen (String.length stackName)
  then String.substring 0 maxStackNameLen stackName
  else stackName.

(** [template.WorkloadNestedStackOpts] *)
Record WorkloadNestedStackOpts : Type :=
  { ns_StackName : string;
    VariableOutputs : list string;
    SecretOutputs : list string;
    PolicyOutputs : list string }.

#[global] Instance WorkloadNestedStackOpts_eq_dec : EqDecision WorkloadNestedStackOpts.
Proof. solve_decision. Defined.

Section Template.

(** The fields of [template.WorkloadOpts] that are computed from the manifest
    alone (workload type, health checks, network, entry point, command). *)
Context {ManifestOpts : Type}.

(** [template.WorkloadOpts], as far as [Template] fills it. *)
Record WorkloadOpts : Type :=
  { NestedStack : option WorkloadNestedStackOpts;
    AddonsExtraParams : string;
    RulePriorityLambda : string;
    DesiredCountLambda : string;
    EnvControllerLambda : string;
    FromManifest : ManifestOpts }.

(** [loadBalancedWebSvcReadParser]; a [*template.Content] is its text. *)
Record loadBalancedWebSvcReadParser : Type :=
  { Read : string -> result string;
    ParseLoadBalancedWebService : WorkloadOpts -> result string }.

(** [LoadBalancedWebService], with [ecsWkld] inlined. *)
Record LoadBalancedWebService : Type :=
  { lb_wkld : wkld;
    taskDefOverrideFunc : string -> result string;
    manifest : ManifestOpts;
    parser : loadBalancedWebSvcReadParser }.

(** Package-level names declared outside the test file: the paths of the
    three lambdas and the reader of the [Outputs] of an addons template. Every
    addons template of the tests has [Outputs] that are read into the options
    of the nested stack, and no test case has the reader fail: the model gives
    it no error. *)
Variables lbWebSvcRulePriorityGeneratorPath desiredCountGeneratorPath
  envControllerPath : string.
Variable addonsOutputsOf : string -> WorkloadNestedStackOpts.

(** The tests do not fix which of the two addons lookups [Template] makes
    first; the model leaves it open. *)
Variable parametersFirst : bool.

(** Modelled from the spec: the body of the lookup of the addons parameters
    is missing; by [TestLoadBalancedWebService_Template] a workload without addons
    ([ErrAddonsNotFound]) has no extra parameters, and any other error is
    returned as "parse addons parameters for <name>: <err>". *)
Definition addonsParameters (w : wkld) : result string :=
  match addons_Parameters (addons w) with
  | Ok params => Ok params
  | Err err =>
      if negb (errorsAs TErrAddonsNotFound err)
      then Err (Wrap ("parse addons parameters for " +:+ name w) err)
      else Ok ""
  end.

(** Modelled from the spec: the body of the lookup of the addons template
    is missing; by [TestLoadBalancedWebService_Template] a template that is
    found gives the nested stack its outputs, a workload without addons
    ([ErrAddonsNotFound]) has no nested stack, and any other error is returned
    as "generate addons template for <name>: <err>". *)
Definition addonsOutputs (w : wkld) : result (option WorkloadNestedStackOpts) :=
  match addons_Template (addons w) with
  | Ok stack => Ok (Some (addonsOutputsOf stack))
  | Err err =>
      if negb (errorsAs TErrAddonsNotFound err)
      then Err (Wrap ("generate addons template for " +:+ name w) err)
      else Ok None
  end.

(** The two lookups, in the order [parametersFirst] says. *)
Definition addonsOf (w : wkld)
  : result (string * option WorkloadNestedStackOpts) :=
  if parametersFirst then
    andThen (addonsParameters w) (fun err => err) (fun params =>
    andThen (addonsOutputs w) (fun err => err) (fun outputs =>
    Ok (params, outputs)))
  else
    andThen (addonsOutputs w) (fun err => err) (fun outputs =>
    andThen (addonsParameters w) (fun err => err) (fun params =>
    Ok (params, outputs))).

(** Modelled from the spec: the body of [LoadBalancedWebService.Template] is
    missing; section 4.5 of the spec makes the addons stack an optional child of
    the workload template, and [TestLoadBalancedWebService_Template] fixes the
    calls on the parser and the addons, the error texts and the options the
    workload template is rendered with. *)
Definition Template (s : LoadBalancedWebService) : result string :=
  andThen (Read (parser s) lbWebSvcRulePriorityGeneratorPath)
    (Wrap "read rule priority lambda") (fun rulePriorityLambda =>
  andThen (Read (parser s) desiredCountGeneratorPath)
    (Wrap "read desired count lambda") (fun desiredCountLambda =>
  andThen (Read (parser s) envControllerPath)
    (Wrap "read env controller lambda") (fun envControllerLambda =>
  andThen (addonsOf (lb_wkld s)) (fun err => err) (fun a =>
  andThen (ParseLoadBalancedWebService (parser s)
             {| NestedStack := snd a;
                AddonsExtraParams := fst a;
                RulePriorityLambda := rulePriorityLambda;
                DesiredCountLambda := desiredCountLambda;
                EnvControllerLambda := envControllerLambda;
                FromManifest := manifest s |})
    (fun err => err) (fun content =>
  andThen (taskDefOverrideFunc s content)
    (Wrap "apply task definition overrides") (fun overridenTpl =>
  Ok overridenTpl)))))).

End Template.
End Stack.

(** ** [internal/pkg/cli/pipeline_deploy.go] *)

Module Cli.
Import GoErr.

(** *** Data of the collaborating packages *)

(** [config.Application], [config.Environment] *)
Record Application : Type :=
  { app_Name : string; app_Tags : gmap string string }.
Record Environment : Type :=
  { env_Name : string; env_Region : string; env_AccountID : string }.

(** [stack.AppRegionalResources] *)
Record AppRegionalResources : Type :=
  { S3Bucket : string; KMSKeyARN : string }.

(** A value of a [map[string]interface{}]: a Go string or anything else. *)
Inductive propValue : Type :=
| PString (s : string)
| PNonString (repr : string).

(** [manifest.Source], [manifest.PipelineStage] *)
Record Source : Type :=
  { ProviderName : string; Properties : gmap string propValue }.
Record ManifestStage : Type :=
  { stage_Name : string;
    stage_RequiresApproval : bool;
    stage_TestCommands : list string }.

(** [deploy.AssociatedEnvironment], [deploy.PipelineStage],
    [deploy.ArtifactBucket] *)
Record AssociatedEnvironment : Type :=
  { ae_Name : string; ae_Region : string; ae_AccountID : string }.
Record PipelineStage : Type :=
  { LocalWorkloads : list string;
    AssociatedEnv : AssociatedEnvironment;
    RequiresApproval : bool;
    TestCommands : list string }.
Record ArtifactBucket : Type :=
  { BucketName : string; KeyArn : string }.

(** The pipeline source of [deploy.CreatePipelineInput] is an [interface{}];
    the command only prints it with [%v] and asks whether it has a
    [ConnectionName() (string, error)] method. *)
Record DeploySource : Type :=
  { src_repr : string;
    src_ConnectionName : option (result string) }.

Section Command.

(** [manifest.Build] and [deploy.Build] are passed through unchanged. *)
Context {ManifestBuild DeployBuild : Type}.

(** [manifest.Pipeline]; [Source] and [Build] are pointers. *)
Record Pipeline : Type :=
  { Name : string;
    pipe_Source : option Source;
    pipe_Build : option ManifestBuild;
    Stages : list ManifestStage }.

(** [deploy.CreatePipelineInput] *)
Record CreatePipelineInput : Type :=
  { in_AppName : string;
    in_Name : string;
    in_Source : DeploySource;
    in_Build : DeployBuild;
    in_Stages : list PipelineStage;
    in_ArtifactBuckets : list ArtifactBucket;
    in_AdditionalTags : gmap string string }.

(** Functions of packages outside this file: [manifest], [deploy],
    [term/color] and [term/log]. *)
Variable UnmarshalPipeline : list Byte.byte -> result Pipeline.
Variable PipelineSourceFromManifest : Source -> result (DeploySource * bool).
Variable PipelineBuildFromManifest : option ManifestBuild -> DeployBuild.
Variables HighlightUserInput HighlightResource HighlightCode Emphasize
  : string -> string.
Variables Serrorf Ssuccessf : string -> string.

(** *** The interfaces held by [deployPipelineOpts] *)

Record pipelineDeployer : Type :=
  { AddPipelineResourcesToApp : Application -> string -> option error;
    PipelineExists : CreatePipelineInput -> result bool;
    CreatePipeline : CreatePipelineInput -> string -> option error;
    UpdatePipeline : CreatePipelineInput -> string -> option error;
    GetRegionalAppResources : Application -> result (list AppRegionalResources);
    GetAppResourcesByRegion : Application -> string -> result AppRegionalResources }.
Record prompter : Type :=
  { Confirm : string -> string -> result bool }.
Record environmentStore : Type :=
  { GetEnvironment : string -> string -> result Environment }.
Record wsPipelineReader : Type :=
  { ReadPipelineManifest : result (list Byte.byte);
    ListWorkloads : result (list string) }.
Record codestar : Type :=
  { GetConnectionARN : string -> result string }.

(** [deployPipelineOpts], with [deployPipelineVars] inlined. The spinner
    [prog] has no state the command reads; its calls go to the trace. *)
Record deployPipelineOpts : Type :=
  { appName : string;
    skipConfirmation : bool;
    o_pipelineDeployer : pipelineDeployer;
    app : Application;
    prompt : prompter;
    region : string;
    envStore : environmentStore;
    ws : wsPipelineReader;
    o_codestar : codestar;
    pipelineName : string;
    shouldPromptUpdateConnection : bool }.

Definition set_pipelineName (n : string) (o : deployPipelineOpts) : deployPipelineOpts :=
  {| appName := appName o; skipConfirmation := skipConfirmation o;
     o_pipelineDeployer := o_pipelineDeployer o; app := app o;
     prompt := prompt o; region := region o; envStore := envStore o;
     ws := ws o; o_codestar := o_codestar o;
     pipelineName := n;
     shouldPromptUpdateConnection := shouldPromptUpdateConnection o |}.

Definition set_shouldPromptUpdateConnection (b : bool) (o : deployPipelineOpts)
  : deployPipelineOpts :=
  {| appName := appName o; skipConfirmation := skipConfirmation o;
     o_pipelineDeployer := o_pipelineDeployer o; app := app o;
     prompt := prompt o; region := region o; envStore := envStore o;
     ws := ws o; o_codestar := o_codestar o;
     pipelineName := pipelineName o;
     shouldPromptUpdateConnection := b |}.

(** *** Effects: every call on a collaborator, in order *)

Inductive event : Type :=
| EvProgStart (msg : string)
| EvProgStop (msg : string)
| EvLogInfo (msg : string)
| EvAddPipelineResourcesToApp (a : Application) (rgn : string)
| EvReadPipelineManifest
| EvGetConnectionARN (connection : string)
| EvListWorkloads
| EvGetEnvironment (appN envN : string)
| EvGetRegionalAppResources (a : Application)
| EvPipelineExists (i : CreatePipelineInput)
| EvGetAppResourcesByRegion (a : Application) (rgn : string)
| EvCreatePipeline (i : CreatePipelineInput) (bucket : string)
| EvUpdatePipeline (i : CreatePipelineInput) (bucket : string)
| EvConfirm (msg help : string).

(** Calls that convert stages or deploy the pipeline stack. *)
Definition isStageOrDeployCall (e : event) : bool :=
  match e with
  | EvListWorkloads | EvGetEnvironment _ _ | EvGetRegionalAppResources _
  | EvPipelineExists _ | EvGetAppResourcesByRegion _ _
  | EvCreatePipeline _ _ | EvUpdatePipeline _ _ | EvConfirm _ _ => true
  | _ => false
  end.

(** The receiver [o] with its two assignable fields, and the trace. *)
Record world : Type :=
  { w_opts : deployPipelineOpts; w_trace : list event }.

(** How a method ends: it returns a value with a [nil] error, returns a
    non-nil error, or panics (failed type assertion, nil dereference). *)
Inductive outcome (A : Type) : Type :=
| Ret (a : A)
| Fail (e : error)
| Panic (why : string).
#[global] Arguments Ret {A} a.
#[global] Arguments Fail {A} e.
#[global] Arguments Panic {A} why.

Definition M (A : Type) : Type := world -> outcome A * world.

Definition ret {A} (a : A) : M A := fun w => (Ret a, w).
Definition fail {A} (e : error) : M A := fun w => (Fail e, w).
Definition panic {A} (why : string) : M A := fun w => (Panic why, w).
Definition bind {A B} (m : M A) (k : A -> M B) : M B :=
  fun w =>
    match m w with
    | (Ret a, w') => k a w'
    | (Fail e, w') => (Fail e, w')
    | (Panic why, w') => (Panic why, w')
    end.

Notation "'let*' x ':=' c 'in' k" := (bind c (fun x => k))
  (at level 10, x name, c at level 100, k at level 200).
Notation "c ;;; k" := (bind c (fun _ => k))
  (at level 100, k at level 200, right associativity).

Definition emit (e : event) : M unit :=
  fun w => (Ret tt, {| w_opts := w_opts w; w_trace := w_trace w ++ [e] |}).
Definition self : M deployPipelineOpts := fun w => (Ret (w_opts w), w).
Definition assign (f : deployPipelineOpts -> deployPipelineOpts) : M unit :=
  fun w => (Ret tt, {| w_opts := f (w_opts w); w_trace := w_trace w |}).

(** [v, err := call(); if err != nil { return f(err) }] *)
Definition orReturn {A} (r : result A) (f : error -> error) : M A :=
  match r with
  | Ok a => ret a
  | Err e => fail (f e)
  end.
(** [if err := m(); err != nil { return f(err) }] for a method of [o]. *)
Definition wrapping {A} (m : M A) (f : error -> error) : M A :=
  fun w =>
    match m w with
    | (Fail e, w') => (Fail (f e), w')
    | r => r
    end.

(** *** Message formats ([const] block) *)

Definition nl : string := String (Ascii.ascii_of_nat 10) EmptyString.

Definition fmtPipelineDeployResourcesStart (s : string) :=
  "Adding pipeline resources to your application: " +:+ s.
Definition fmtPipelineDeployResourcesFailed (s : string) :=
  "Failed to add pipeline resources to your application: " +:+ s +:+ nl.
Definition fmtPipelineDeployResourcesComplete (s : string) :=
  "Successfully added pipeline resources to your application: " +:+ s +:+ nl.
Definition fmtPipelineDeployStart (s : string) :=
  "Creating a new pipeline: " +:+ s.
Definition fmtPipelineDeployFailed (s : string) :=
  "Failed to create a new pipeline: " +:+ s +:+ "." +:+ nl.
Definition fmtPipelineDeployComplete (s : string) :=
  "Successfully created a new pipeline: " +:+ s +:+ nl.
Definition fmtPipelineDeployProposalStart (s : string) :=
  "Proposing infrastructure changes for the pipeline: " +:+ s.
Definition fmtPipelineDeployProposalFailed (s : string) :=
  "Failed to accept changes for pipeline: " +:+ s +:+ "." +:+ nl.
Definition fmtPipelineDeployProposalComplete (s : string) :=
  "Successfully deployed pipeline: " +:+ s +:+ nl.
Definition fmtPipelineDeployExistPrompt (s : string) :=
  "Are you sure you want to redeploy an existing pipeline: " +:+ s +:+ "?".
Definition connectionsURL :=
  "https://console.aws.amazon.com/codesuite/settings/connections".

(** A call on a collaborator: recorded, then its answer. *)
Definition call {A} (e : event) (answer : A) : M A :=
  emit e ;;; ret answer.

Definition progStart (msg : string) : M unit := emit (EvProgStart msg).
Definition progStop (msg : string) : M unit := emit (EvProgStop msg).
Definition logInfoln : M unit := emit (EvLogInfo nl).
Definition logInfof (msg : string) : M unit := emit (EvLogInfo msg).

(** [fmt.Errorf("ctx: %w", err)] *)
Definition Errorf_w (ctx : string) (err : error) : error := Wrap ctx err.

(** *** Methods of [deployPipelineOpts] *)

(** [Validate] *)
Definition Validate : M unit := ret tt.

(** [convertStages]: the [for] loop over the manifest stages, appending to
    [stages]. *)
Fixpoint convertStagesLoop (workloads : list string)
    (manifestStages : list ManifestStage) (stages : list PipelineStage)
    : M (list PipelineStage) :=
  match manifestStages with
  | [] => ret stages
  | stage :: rest =>
      let* o := self in
      let* r := call (EvGetEnvironment (appName o) (stage_Name stage))
                     (GetEnvironment (envStore o) (appName o) (stage_Name stage)) in
      let* env := orReturn r
                    (Errorf_w ("get environment " +:+ stage_Name stage
                               +:+ " in application " +:+ appName o)) in
      let pipelineStage :=
        {| LocalWorkloads := workloads;
           AssociatedEnv :=
             {| ae_Name := stage_Name stage;
                ae_Region := env_Region env;
                ae_AccountID := env_AccountID env |};
           RequiresApproval := stage_RequiresApproval stage;
           TestCommands := stage_TestCommands stage |} in
      convertStagesLoop workloads rest (stages ++ [pipelineStage])
  end.

Definition convertStages (manifestStages : list ManifestStage)
    : M (list PipelineStage) :=
  let* o := self in
  let* r := call EvListWorkloads (ListWorkloads (ws o)) in
  let* workloads := orReturn r (Errorf_w "get workload names from workspace") in
  convertStagesLoop workloads manifestStages [].

(** [getArtifactBuckets] *)
Definition getArtifactBuckets : M (list ArtifactBucket) :=
  let* o := self in
  let* r := call (EvGetRegionalAppResources (app o))
                 (GetRegionalAppResources (o_pipelineDeployer o) (app o)) in
  let* regionalResources := orReturn r (fun err => err) in
  ret (map (fun resource =>
              {| BucketName := S3Bucket resource;
                 KeyArn := KMSKeyARN resource |})
           regionalResources).

(** [getBucketName] *)
Definition getBucketName : M string :=
  let* o := self in
  let* r := call (EvGetAppResourcesByRegion (app o) (region o))
                 (GetAppResourcesByRegion (o_pipelineDeployer o) (app o) (region o)) in
  let* resources := orReturn r (Errorf_w "get app resources") in
  ret (S3Bucket resources).

(** [shouldUpdate] *)
Definition shouldUpdate : M bool :=
  let* o := self in
  if skipConfirmation o then ret true
  else
    let msg := fmtPipelineDeployExistPrompt (pipelineName o) in
    let* r := call (EvConfirm msg "") (Confirm (prompt o) msg "") in
    orReturn r (Errorf_w "prompt for pipeline deploy").

(** [deployPipeline] *)
Definition deployPipeline (i : CreatePipelineInput) : M unit :=
  let* o := self in
  let* r := call (EvPipelineExists i) (PipelineExists (o_pipelineDeployer o) i) in
  let* exist := orReturn r (Errorf_w "check if pipeline exists") in
  (* Find the bucket to push the pipeline template to. *)
  let* bucketName := wrapping getBucketName (Errorf_w "get bucket name") in
  if negb exist then
    progStart (fmtPipelineDeployStart (HighlightUserInput (pipelineName o))) ;;;
    (if shouldPromptUpdateConnection o then
       match src_ConnectionName (in_Source i) with
       | None =>
           fail (New ("source " +:+ src_repr (in_Source i)
                      +:+ " does not have a connection name"))
       | Some rc =>
           let* connectionName := orReturn rc (Errorf_w "parse connection name") in
           logInfoln ;;;
           logInfof (Emphasize "ACTION REQUIRED!" +:+ " Go to "
                     +:+ HighlightResource connectionsURL
                     +:+ " to update the status of connection "
                     +:+ HighlightUserInput connectionName
                     +:+ " from PENDING to AVAILABLE.") ;;;
           logInfoln
       end
     else ret tt) ;;;
    let* cerr := call (EvCreatePipeline i bucketName)
                      (CreatePipeline (o_pipelineDeployer o) i bucketName) in
    match cerr with
    | Some err =>
        if negb (errorsAs TErrStackAlreadyExists err) then
          progStop (Serrorf (fmtPipelineDeployFailed
                               (HighlightUserInput (pipelineName o)))) ;;;
          fail (Errorf_w "create pipeline" err)
        else ret tt
    | None => ret tt
    end ;;;
    progStop (Ssuccessf (fmtPipelineDeployComplete
                           (HighlightUserInput (pipelineName o)))) ;;;
    ret tt
  else
    (* If the stack already exists - we update it *)
    let* should := shouldUpdate in
    if negb should then ret tt
    else
      progStart (fmtPipelineDeployProposalStart
                   (HighlightUserInput (pipelineName o))) ;;;
      let* uerr := call (EvUpdatePipeline i bucketName)
                        (UpdatePipeline (o_pipelineDeployer o) i bucketName) in
      match uerr with
      | Some err =>
          progStop (Serrorf (fmtPipelineDeployProposalFailed
                               (HighlightUserInput (pipelineName o)))) ;;;
          fail (Errorf_w "update pipeline" err)
      | None =>
          progStop (Ssuccessf (fmtPipelineDeployProposalComplete
                                 (HighlightUserInput (pipelineName o)))) ;;;
          ret tt
      end.

(** The pipeline-name error of [Execute]. *)
Definition errPipelineNameTooLong (name : string) : error :=
  New ("pipeline name '" +:+ name +:+ "' must be shorter than 100 characters").

(** [Execute] *)
Definition Execute : M unit :=
  let* o := self in
  (* bootstrap pipeline resources *)
  progStart (fmtPipelineDeployResourcesStart (HighlightUserInput (appName o))) ;;;
  let* err := call (EvAddPipelineResourcesToApp (app o) (region o))
                   (AddPipelineResourcesToApp (o_pipelineDeployer o) (app o) (region o)) in
  match err with
  | Some err =>
      progStop (Serrorf (fmtPipelineDeployResourcesFailed
                           (HighlightUserInput (appName o)))) ;;;
      fail (Errorf_w ("add pipeline resources to application " +:+ appName o
                      +:+ " in " +:+ region o) err)
  | None =>
      progStop (Ssuccessf (fmtPipelineDeployResourcesComplete
                             (HighlightUserInput (appName o)))) ;;;
      (* read pipeline manifest *)
      let* r := call EvReadPipelineManifest (ReadPipelineManifest (ws o)) in
      let* data := orReturn r (Errorf_w "read pipeline manifest") in
      let* pipeline := orReturn (UnmarshalPipeline data)
                         (Errorf_w "unmarshal pipeline manifest") in
      if Nat.ltb 100 (String.length (Name pipeline)) then
        fail (errPipelineNameTooLong (Name pipeline))
      else
        assign (set_pipelineName (Name pipeline)) ;;;
        match pipe_Source pipeline with
        | None => panic "invalid memory address or nil pointer dereference"
        | Some src =>
            (* If the source has an existing connection, get the
               correlating ConnectionARN. *)
            let* src :=
              match Properties src !! "connection_name" with
              | Some connection =>
                  match connection with
                  | PNonString _ =>
                      panic "interface conversion: interface {} is not string"
                  | PString name =>
                      let* ra := call (EvGetConnectionARN name)
                                      (GetConnectionARN (o_codestar o) name) in
                      let* arn := orReturn ra (Errorf_w "get connection ARN") in
                      ret {| ProviderName := ProviderName src;
                             Properties :=
                               <["connection_arn" := PString arn]> (Properties src) |}
                  end
              | None => ret src
              end in
            let* sb := orReturn (PipelineSourceFromManifest src)
                         (Errorf_w "read source from manifest") in
            assign (set_shouldPromptUpdateConnection (snd sb)) ;;;
            (* convert environments to deployment stages *)
            let* stages := wrapping (convertStages (Stages pipeline))
                             (Errorf_w "convert environments to deployment stage") in
            (* get cross-regional resources *)
            let* artifactBuckets := wrapping getArtifactBuckets
                                      (Errorf_w "get cross-regional resources") in
            let deployPipelineInput :=
              {| in_AppName := appName o;
                 in_Name := Name pipeline;
                 in_Source := fst sb;
                 in_Build := PipelineBuildFromManifest (pipe_Build pipeline);
                 in_Stages := stages;
                 in_ArtifactBuckets := artifactBuckets;
                 in_AdditionalTags := app_Tags (app o) |} in
            deployPipeline deployPipelineInput
        end
  end.

(** [RecommendedActions] *)
Definition RecommendedActions : list string :=
  [ "Run " +:+ HighlightCode "copilot pipeline status"
      +:+ " to see the state of your pipeline.";
    "Run " +:+ HighlightCode "copilot pipeline show"
      +:+ " for info about your pipeline." ].

(** *** Running the command: equations of the monad *)

Definition addEv (w : world) (e : event) : world :=
  {| w_opts := w_opts w; w_trace := w_trace w ++ [e] |}.

Lemma bind_ret {A B} (a : A) (k : A -> M B) w : bind (ret a) k w = k a w.
Proof. reflexivity. Qed.

Lemma bind_self {B} (k : deployPipelineOpts -> M B) w :
  bind self k w = k (w_opts w) w.
Proof. reflexivity. Qed.

Lemma bind_emit {B} e (k : unit -> M B) w : bind (emit e) k w = k tt (addEv w e).
Proof. reflexivity. Qed.

Lemma bind_call {A B} e (a : A) (k : A -> M B) w :
  bind (call e a) k w = k a (addEv w e).
Proof. reflexivity. Qed.

Lemma bind_fail {A B} e (k : A -> M B) w : bind (fail e) k w = (Fail e, w).
Proof. reflexivity. Qed.

Lemma bind_assoc {A B C} (m : M A) (k : A -> M B) (h : B -> M C) w :
  bind (bind m k) h w = bind m (fun a => bind (k a) h) w.
Proof. unfold bind. destruct (m w) as [[a | e | why] w']; reflexivity. Qed.

Lemma bind_wrapping_Ret {A B} (m : M A) f (k : A -> M B) w a w' :
  m w = (Ret a, w') -> bind (wrapping m f) k w = k a w'.
Proof. intros H. unfold bind, wrapping. rewrite H. reflexivity. Qed.

Lemma wrapping_Ret {A} (m : M A) f w a w' :
  m w = (Ret a, w') -> wrapping m f w = (Ret a, w').
Proof. intros H. unfold wrapping. rewrite H. reflexivity. Qed.

Ltac step :=
  repeat first
    [ rewrite bind_assoc
    | rewrite bind_self
    | rewrite bind_call
    | rewrite bind_emit
    | rewrite bind_ret
    | rewrite bind_fail
    | progress unfold progStart, progStop, logInfoln, logInfof ].

(** *** Which errors a method can return, and which fields it leaves alone *)

(** Every error [m] returns satisfies [ok]. *)
Definition failsOnly {A} (ok : error -> Prop) (m : M A) : Prop :=
  forall w e, (m w).1 = Fail e -> ok e.

(** [m] does not assign [o.pipelineName]. *)
Definition keepsName {A} (m : M A) : Prop :=
  forall w, pipelineName (w_opts (m w).2) = pipelineName (w_opts w).

Lemma failsOnly_bind {A B} ok (m : M A) (k : A -> M B) :
  failsOnly ok m -> (forall a, failsOnly ok (k a)) -> failsOnly ok (bind m k).
Proof.
  intros Hm Hk w e. unfold bind.
  specialize (Hm w). destruct (m w) as [[a | e' | why] w']; simpl in *.
  - apply Hk.
  - intros [= <-]. now apply Hm.
  - discriminate.
Qed.

Lemma failsOnly_quiet {A} ok (m : M A) :
  (forall w e, (m w).1 <> Fail e) -> failsOnly ok m.
Proof. intros H w e He. now apply H in He. Qed.

Lemma failsOnly_fail {A} (ok : error -> Prop) e : ok e -> failsOnly ok (@fail A e).
Proof. intros H w e' [= <-]. exact H. Qed.

Lemma failsOnly_orReturn {A} (ok : error -> Prop) (r : result A) f :
  (forall e, ok (f e)) -> failsOnly ok (orReturn r f).
Proof. intros H w e. destruct r; simpl; [discriminate | intros [= <-]; apply H]. Qed.

Lemma failsOnly_wrapping {A} (ok : error -> Prop) (m : M A) f :
  (forall e, ok (f e)) -> failsOnly ok (wrapping m f).
Proof.
  intros H w e. unfold wrapping.
  destruct (m w) as [[a | e' | why] w']; simpl; try discriminate.
  intros [= <-]. apply H.
Qed.

Lemma keepsName_bind {A B} (m : M A) (k : A -> M B) :
  keepsName m -> (forall a, keepsName (k a)) -> keepsName (bind m k).
Proof.
  intros Hm Hk w. unfold bind.
  specialize (Hm w). destruct (m w) as [[a | e' | why] w']; simpl in *; try exact Hm.
  rewrite Hk. exact Hm.
Qed.

Lemma keepsName_wrapping {A} (m : M A) f : keepsName m -> keepsName (wrapping m f).
Proof.
  intros Hm w. unfold wrapping. specialize (Hm w).
  destruct (m w) as [[a | e' | why] w']; exact Hm.
Qed.

Lemma keepsName_orReturn {A} (r : result A) f : keepsName (orReturn r f).
Proof. intros w. destruct r; reflexivity. Qed.

Lemma keepsName_call {A} e (a : A) : keepsName (call e a).
Proof. intros w. reflexivity. Qed.

Create HintDb cli discriminated.
#[local] Hint Resolve failsOnly_orReturn failsOnly_wrapping failsOnly_fail
  keepsName_orReturn keepsName_wrapping keepsName_call : cli.

(** Errors built by [fmt.Errorf("...: %w", err)] are never the pipeline-name
    error, which wraps nothing. *)
Lemma Errorf_w_not_name ctx n e : Errorf_w ctx e <> errPipelineNameTooLong n.
Proof. discriminate. Qed.
#[local] Hint Resolve Errorf_w_not_name : cli.

Ltac structural :=
  repeat first
    [ apply failsOnly_bind; [ | intros ? ]
    | apply keepsName_bind; [ | intros ? ]
    | solve [ auto with cli ]
    | solve [ apply failsOnly_quiet; intros; simpl; discriminate ]
    | solve [ intros ?; reflexivity ]
    | match goal with
      | |- context [ if ?b then _ else _ ] => destruct b
      | |- context [ match ?x with _ => _ end ] => destruct x
      end ].

Lemma convertStagesLoop_keepsName workloads ms acc :
  keepsName (convertStagesLoop workloads ms acc).
Proof. revert acc. induction ms as [| stage rest IH]; intros acc; simpl; structural. Qed.

Lemma convertStagesLoop_failsOnly n workloads ms acc :
  failsOnly (fun e => e <> errPipelineNameTooLong n) (convertStagesLoop workloads ms acc).
Proof. revert acc. induction ms as [| stage rest IH]; intros acc; simpl; structural. Qed.

Lemma convertStages_keepsName ms : keepsName (convertStages ms).
Proof. unfold convertStages. structural. apply convertStagesLoop_keepsName. Qed.

Lemma getArtifactBuckets_keepsName : keepsName getArtifactBuckets.
Proof. unfold getArtifactBuckets. structural. Qed.

Lemma getBucketName_keepsName : keepsName getBucketName.
Proof. unfold getBucketName. structural. Qed.

Lemma shouldUpdate_keepsName : keepsName shouldUpdate.
Proof. unfold shouldUpdate. structural. Qed.

Lemma shouldUpdate_failsOnly n :
  failsOnly (fun e => e <> errPipelineNameTooLong n) shouldUpdate.
Proof. unfold shouldUpdate. structural. Qed.

#[local] Hint Resolve convertStages_keepsName getArtifactBuckets_keepsName
  getBucketName_keepsName shouldUpdate_keepsName shouldUpdate_failsOnly : cli.

Lemma deployPipeline_keepsName i : keepsName (deployPipeline i).
Proof. unfold deployPipeline. structural. Qed.

Lemma deployPipeline_failsOnly n i :
  failsOnly (fun e => e <> errPipelineNameTooLong n) (deployPipeline i).
Proof. unfold deployPipeline. structural. Qed.

(** *** [deployPipeline]: the create path *)

(** What [deployPipeline] logs between starting the spinner and calling
    [CreatePipeline]: the connection reminder, when one is due. *)
Definition connectionReminder (o : deployPipelineOpts) (i : CreatePipelineInput)
  : list event :=
  if shouldPromptUpdateConnection o then
    match src_ConnectionName (in_Source i) with
    | Some (Ok connectionName) =>
        [ EvLogInfo nl;
          EvLogInfo (Emphasize "ACTION REQUIRED!" +:+ " Go to "
                     +:+ HighlightResource connectionsURL
                     +:+ " to update the status of connection "
                     +:+ HighlightUserInput connectionName
                     +:+ " from PENDING to AVAILABLE.");
          EvLogInfo nl ]
    | _ => []
    end
  else [].

(** The create path up to the answer of [CreatePipeline]. *)
Lemma deployPipeline_create_path i w res :
  PipelineExists (o_pipelineDeployer (w_opts w)) i = Ok false ->
  GetAppResourcesByRegion (o_pipelineDeployer (w_opts w)) (app (w_opts w))
    (region (w_opts w)) = Ok res ->
  (shouldPromptUpdateConnection (w_opts w) = true ->
   exists connectionName,
     src_ConnectionName (in_Source i) = Some (Ok connectionName)) ->
  let o := w_opts w in
  let w1 :=
    {| w_opts := o;
       w_trace := w_trace w
         ++ [ EvPipelineExists i;
              EvGetAppResourcesByRegion (app o) (region o);
              EvProgStart (fmtPipelineDeployStart (HighlightUserInput (pipelineName o))) ]
         ++ connectionReminder o i
         ++ [ EvCreatePipeline i (S3Bucket res) ] |} in
  deployPipeline i w =
    match CreatePipeline (o_pipelineDeployer o) i (S3Bucket res) with
    | Some err =>
        if negb (errorsAs TErrStackAlreadyExists err) then
          (Fail (Errorf_w "create pipeline" err),
           addEv w1 (EvProgStop (Serrorf (fmtPipelineDeployFailed
                                            (HighlightUserInput (pipelineName o))))))
        else
          (Ret tt,
           addEv w1 (EvProgStop (Ssuccessf (fmtPipelineDeployComplete
                                              (HighlightUserInput (pipelineName o))))))
    | None =>
        (Ret tt,
         addEv w1 (EvProgStop (Ssuccessf (fmtPipelineDeployComplete
                                            (HighlightUserInput (pipelineName o))))))
    end.
Proof.
  intros Hexist Hres Hconn. destruct w as [o tr]. simpl in *.
  unfold deployPipeline, connectionReminder, addEv.
  step. simpl. rewrite Hexist. simpl. step.
  erewrite bind_wrapping_Ret
    by (unfold getBucketName; step; simpl; rewrite Hres; reflexivity).
  simpl. step.
  destruct (shouldPromptUpdateConnection o) eqn:Hprompt.
  - destruct (Hconn eq_refl) as [cn Hcn]. rewrite Hcn. simpl.
    step. simpl.
    destruct (CreatePipeline (o_pipelineDeployer o) i (S3Bucket res)) as [err |];
      [destruct (errorsAs TErrStackAlreadyExists err) |];
      simpl; step; simpl; unfold addEv; simpl;
      repeat rewrite <- app_assoc; reflexivity.
  - step. simpl.
    destruct (CreatePipeline (o_pipelineDeployer o) i (S3Bucket res)) as [err |];
      [destruct (errorsAs TErrStackAlreadyExists err) |];
      simpl; step; simpl; unfold addEv; simpl;
      repeat rewrite <- app_assoc; reflexivity.
Qed.

(** C1. When [deployPipeline] takes the create path and [CreatePipeline]
    answers with an error in whose chain [errors.As] finds a
    [*cloudformation.ErrStackAlreadyExists], [deployPipeline] returns [nil]:
    the error is not surfaced, the spinner is stopped with the success message
    as for a create that succeeded, and [CreatePipeline] was the only
    deployment call made. *)
Theorem deployPipeline_already_exists_is_success i w res err :
  PipelineExists (o_pipelineDeployer (w_opts w)) i = Ok false ->
  GetAppResourcesByRegion (o_pipelineDeployer (w_opts w)) (app (w_opts w))
    (region (w_opts w)) = Ok res ->
  (shouldPromptUpdateConnection (w_opts w) = true ->
   exists connectionName,
     src_ConnectionName (in_Source i) = Some (Ok connectionName)) ->
  CreatePipeline (o_pipelineDeployer (w_opts w)) i (S3Bucket res) = Some err ->
  errorsAs TErrStackAlreadyExists err = true ->
  let o := w_opts w in
  deployPipeline i w =
    (Ret tt,
     {| w_opts := o;
        w_trace := w_trace w
          ++ [ EvPipelineExists i;
               EvGetAppResourcesByRegion (app o) (region o);
               EvProgStart (fmtPipelineDeployStart (HighlightUserInput (pipelineName o))) ]
          ++ connectionReminder o i
          ++ [ EvCreatePipeline i (S3Bucket res);
               EvProgStop (Ssuccessf (fmtPipelineDeployComplete
                                        (HighlightUserInput (pipelineName o)))) ] |}).
Proof.
  intros Hexist Hres Hconn Hcreate Has o. subst o.
  rewrite (deployPipeline_create_path i w res Hexist Hres Hconn).
  rewrite Hcreate, Has. simpl. unfold addEv. simpl.
  do 2 f_equal. rewrite <- !app_assoc. simpl. rewrite <- !app_assoc. reflexivity.
Qed.

(** Any other error of [CreatePipeline] is returned, wrapped. *)
Lemma deployPipeline_create_error i w res err :
  PipelineExists (o_pipelineDeployer (w_opts w)) i = Ok false ->
  GetAppResourcesByRegion (o_pipelineDeployer (w_opts w)) (app (w_opts w))
    (region (w_opts w)) = Ok res ->
  (shouldPromptUpdateConnection (w_opts w) = true ->
   exists connectionName,
     src_ConnectionName (in_Source i) = Some (Ok connectionName)) ->
  CreatePipeline (o_pipelineDeployer (w_opts w)) i (S3Bucket res) = Some err ->
  errorsAs TErrStackAlreadyExists err = false ->
  (deployPipeline i w).1 = Fail (Wrap "create pipeline" err).
Proof.
  intros Hexist Hres Hconn Hcreate Has.
  rewrite (deployPipeline_create_path i w res Hexist Hres Hconn).
  rewrite Hcreate, Has. reflexivity.
Qed.

(** *** [Execute]: the check on the pipeline name *)

Lemma bind_assign {B} f (k : unit -> M B) w :
  bind (assign f) k w = k tt {| w_opts := f (w_opts w); w_trace := w_trace w |}.
Proof. reflexivity. Qed.

#[local] Hint Resolve deployPipeline_keepsName deployPipeline_failsOnly : cli.

(** What [Execute] has logged when the bootstrap of the pipeline resources
    succeeded and the manifest has been read. *)
Definition bootstrapTrace (o : deployPipelineOpts) : list event :=
  [ EvProgStart (fmtPipelineDeployResourcesStart (HighlightUserInput (appName o)));
    EvAddPipelineResourcesToApp (app o) (region o);
    EvProgStop (Ssuccessf (fmtPipelineDeployResourcesComplete
                             (HighlightUserInput (appName o))));
    EvReadPipelineManifest ].

(** When the bootstrap fails, [Execute] returns before reading the manifest. *)
Lemma Execute_bootstrap_failed w err :
  AddPipelineResourcesToApp (o_pipelineDeployer (w_opts w)) (app (w_opts w))
    (region (w_opts w)) = Some err ->
  let o := w_opts w in
  Execute w =
    (Fail (Wrap ("add pipeline resources to application " +:+ appName o
                 +:+ " in " +:+ region o) err),
     {| w_opts := o;
        w_trace := w_trace w
          ++ [ EvProgStart (fmtPipelineDeployResourcesStart
                              (HighlightUserInput (appName o)));
               EvAddPipelineResourcesToApp (app o) (region o);
               EvProgStop (Serrorf (fmtPipelineDeployResourcesFailed
                                      (HighlightUserInput (appName o)))) ] |}).
Proof.
  intros Hadd o. subst o. destruct w as [o tr]. simpl in *.
  unfold Execute. step. simpl. rewrite Hadd. step. simpl.
  unfold fail, addEv. simpl. rewrite <- !app_assoc. reflexivity.
Qed.

(** A name longer than 100 bytes stops [Execute] right after the manifest is
    unmarshalled. *)
Lemma Execute_name_too_long w data p :
  AddPipelineResourcesToApp (o_pipelineDeployer (w_opts w)) (app (w_opts w))
    (region (w_opts w)) = None ->
  ReadPipelineManifest (ws (w_opts w)) = Ok data ->
  UnmarshalPipeline data = Ok p ->
  100 < String.length (Name p) ->
  Execute w =
    (Fail (errPipelineNameTooLong (Name p)),
     {| w_opts := w_opts w; w_trace := w_trace w ++ bootstrapTrace (w_opts w) |}).
Proof.
  intros Hadd Hread Hunm Hlen. destruct w as [o tr]. simpl in *.
  unfold Execute. step. simpl. rewrite Hadd. step. simpl.
  rewrite Hread. simpl. step. rewrite Hunm. simpl. step.
  destruct (Nat.ltb_spec 100 (String.length (Name p))) as [_ | Hle]; [| lia].
  unfold fail, addEv, bootstrapTrace. simpl. rewrite <- !app_assoc. reflexivity.
Qed.

(** *** The pipeline name in characters *)

(** A continuation byte of UTF-8: a byte from 128 to 191. *)
Definition isContinuationByte (b : Ascii.ascii) : bool :=
  Nat.leb 128 (Ascii.nat_of_ascii b) && Nat.ltb (Ascii.nat_of_ascii b) 192.

(** Modelled from the spec: the length of a name in characters, as the spec
    counts it. A name is UTF-8 text, and its characters are its code points:
    one for every byte that is not a continuation byte. *)
Fixpoint characters (s : string) : nat :=
  match s with
  | EmptyString => 0
  | String b rest =>
      if isContinuationByte b then characters rest else S (characters rest)
  end.

Lemma characters_le_length s : characters s <= String.length s.
Proof.
  induction s as [| b rest IH]; simpl; [lia |].
  destruct (isContinuationByte b); lia.
Qed.

(** A name longer than 100 characters is longer than 100 bytes, so [Execute]
    refuses it. *)
Lemma Execute_name_of_more_than_100_characters w data p :
  AddPipelineResourcesToApp (o_pipelineDeployer (w_opts w)) (app (w_opts w))
    (region (w_opts w)) = None ->
  ReadPipelineManifest (ws (w_opts w)) = Ok data ->
  UnmarshalPipeline data = Ok p ->
  100 < characters (Name p) ->
  (Execute w).1 = Fail (errPipelineNameTooLong (Name p)).
Proof.
  intros Hadd Hread Hunm Hlen.
  rewrite (Execute_name_too_long w data p Hadd Hread Hunm); [reflexivity |].
  pose proof (characters_le_length (Name p)). lia.
Qed.

(** A name of at most 100 bytes passes: [Execute] assigns [o.pipelineName]
    and whatever it returns afterwards is not the pipeline-name error. *)
Lemma Execute_name_accepted w data p :
  AddPipelineResourcesToApp (o_pipelineDeployer (w_opts w)) (app (w_opts w))
    (region (w_opts w)) = None ->
  ReadPipelineManifest (ws (w_opts w)) = Ok data ->
  UnmarshalPipeline data = Ok p ->
  String.length (Name p) <= 100 ->
  (Execute w).1 <> Fail (errPipelineNameTooLong (Name p))
  /\ pipelineName (w_opts (Execute w).2) = Name p.
Proof.
  intros Hadd Hread Hunm Hlen. destruct w as [o tr]. simpl in *.
  unfold Execute. step. simpl. rewrite Hadd. step. simpl.
  rewrite Hread. simpl. step. rewrite Hunm. simpl. step.
  destruct (Nat.ltb_spec 100 (String.length (Name p))) as [Hlt | _]; [lia |].
  rewrite bind_assign. simpl.
  match goal with
  | |- (?rest ?w1).1 <> _ /\ _ =>
      assert (Hf : failsOnly (fun e => e <> errPipelineNameTooLong (Name p)) rest)
        by structural;
      assert (Hk : keepsName rest) by structural;
      split; [ intros He; exact (Hf w1 _ He eq_refl) | rewrite (Hk w1); reflexivity ]
  end.
Qed.

(** C9, amended: the limit is on the bytes of the name, not on its
    characters. [Execute] on a manifest whose [Name] is longer than 100 bytes
    (Go's [len]) returns an error, having made no call that converts stages or
    deploys the pipeline stack and without assigning [o.pipelineName]; when the
    bootstrap of the pipeline resources succeeded, the error is the
    pipeline-name error. On a name of 100 bytes or fewer the check passes:
    [o.pipelineName] is assigned and the pipeline-name error is not returned. *)
Theorem Execute_pipeline_name_check w data p :
  ReadPipelineManifest (ws (w_opts w)) = Ok data ->
  UnmarshalPipeline data = Ok p ->
  (100 < String.length (Name p) ->
   (exists e, (Execute w).1 = Fail e)
   /\ (exists evs, w_trace (Execute w).2 = w_trace w ++ evs
                   /\ Forall (fun ev => isStageOrDeployCall ev = false) evs)
   /\ w_opts (Execute w).2 = w_opts w
   /\ (AddPipelineResourcesToApp (o_pipelineDeployer (w_opts w)) (app (w_opts w))
         (region (w_opts w)) = None ->
       (Execute w).1 = Fail (errPipelineNameTooLong (Name p))))
  /\ (String.length (Name p) <= 100 ->
      AddPipelineResourcesToApp (o_pipelineDeployer (w_opts w)) (app (w_opts w))
        (region (w_opts w)) = None ->
      (Execute w).1 <> Fail (errPipelineNameTooLong (Name p))
      /\ pipelineName (w_opts (Execute w).2) = Name p).
Proof.
  intros Hread Hunm. split.
  - intros Hlen.
    destruct (AddPipelineResourcesToApp (o_pipelineDeployer (w_opts w))
                (app (w_opts w)) (region (w_opts w))) as [err |] eqn:Hadd.
    + rewrite (Execute_bootstrap_failed w err Hadd). simpl.
      split; [eauto |]. split; [| split; [reflexivity | discriminate]].
      eexists. split; [reflexivity |]. repeat constructor.
    + rewrite (Execute_name_too_long w data p Hadd Hread Hunm Hlen). simpl.
      split; [eauto |]. split; [| split; reflexivity].
      eexists. split; [reflexivity |]. repeat constructor.
  - intros Hlen Hadd. exact (Execute_name_accepted w data p Hadd Hread Hunm Hlen).
Qed.

(** *** [deployPipeline]: the update path *)

(** [UpdatePipeline] and the spinner around it. *)
Definition updateWith (i : CreatePipelineInput) (bucketName : string) (w : world)
  : outcome unit * world :=
  let o := w_opts w in
  let started :=
    w_trace w
      ++ [ EvProgStart (fmtPipelineDeployProposalStart
                          (HighlightUserInput (pipelineName o)));
           EvUpdatePipeline i bucketName ] in
  match UpdatePipeline (o_pipelineDeployer o) i bucketName with
  | Some err =>
      (Fail (Wrap "update pipeline" err),
       {| w_opts := o;
          w_trace := started
            ++ [ EvProgStop (Serrorf (fmtPipelineDeployProposalFailed
                                        (HighlightUserInput (pipelineName o)))) ] |})
  | None =>
      (Ret tt,
       {| w_opts := o;
          w_trace := started
            ++ [ EvProgStop (Ssuccessf (fmtPipelineDeployProposalComplete
                                          (HighlightUserInput (pipelineName o)))) ] |})
  end.

Lemma deployPipeline_update_path i w res :
  PipelineExists (o_pipelineDeployer (w_opts w)) i = Ok true ->
  GetAppResourcesByRegion (o_pipelineDeployer (w_opts w)) (app (w_opts w))
    (region (w_opts w)) = Ok res ->
  let o := w_opts w in
  let w1 :=
    {| w_opts := o;
       w_trace := w_trace w
         ++ [ EvPipelineExists i;
              EvGetAppResourcesByRegion (app o) (region o) ] |} in
  let question := fmtPipelineDeployExistPrompt (pipelineName o) in
  deployPipeline i w =
    if skipConfirmation o then updateWith i (S3Bucket res) w1
    else
      match Confirm (prompt o) question "" with
      | Err err =>
          (Fail (Wrap "prompt for pipeline deploy" err),
           addEv w1 (EvConfirm question ""))
      | Ok false => (Ret tt, addEv w1 (EvConfirm question ""))
      | Ok true => updateWith i (S3Bucket res) (addEv w1 (EvConfirm question ""))
      end.
Proof.
  intros Hexist Hres. destruct w as [o tr]. simpl in *.
  unfold deployPipeline, updateWith, addEv.
  step. simpl. rewrite Hexist. simpl. step.
  erewrite bind_wrapping_Ret
    by (unfold getBucketName; step; simpl; rewrite Hres; reflexivity).
  simpl. unfold shouldUpdate. step. simpl.
  destruct (skipConfirmation o).
  - step. simpl. step. simpl.
    destruct (UpdatePipeline (o_pipelineDeployer o) i (S3Bucket res));
      step; simpl; unfold addEv, fail, ret; simpl;
      rewrite <- ?app_assoc; simpl; rewrite <- ?app_assoc; reflexivity.
  - step. simpl.
    destruct (Confirm (prompt o) (fmtPipelineDeployExistPrompt (pipelineName o)) "")
      as [[|] | err]; simpl; step; simpl.
    + destruct (UpdatePipeline (o_pipelineDeployer o) i (S3Bucket res));
        step; simpl; unfold addEv, fail, ret; simpl;
        rewrite <- ?app_assoc; simpl; rewrite <- ?app_assoc; reflexivity.
    + unfold addEv, ret; simpl. rewrite <- ?app_assoc. reflexivity.
    + unfold addEv, fail; simpl. rewrite <- ?app_assoc. reflexivity.
Qed.

(** When the pipeline exists and the user answers no, [deployPipeline]
    returns [nil] having asked and nothing more: no spinner, no deployment
    call. *)
Theorem deployPipeline_declined_update i w res :
  PipelineExists (o_pipelineDeployer (w_opts w)) i = Ok true ->
  GetAppResourcesByRegion (o_pipelineDeployer (w_opts w)) (app (w_opts w))
    (region (w_opts w)) = Ok res ->
  skipConfirmation (w_opts w) = false ->
  Confirm (prompt (w_opts w))
    (fmtPipelineDeployExistPrompt (pipelineName (w_opts w))) "" = Ok false ->
  let o := w_opts w in
  deployPipeline i w =
    (Ret tt,
     {| w_opts := o;
        w_trace := w_trace w
          ++ [ EvPipelineExists i;
               EvGetAppResourcesByRegion (app o) (region o);
               EvConfirm (fmtPipelineDeployExistPrompt (pipelineName o)) "" ] |}).
Proof.
  intros Hexist Hres Hskip Hconfirm o. subst o.
  rewrite (deployPipeline_update_path i w res Hexist Hres).
  rewrite Hskip, Hconfirm. unfold addEv. simpl.
  rewrite <- ?app_assoc. reflexivity.
Qed.

(** With [--yes] an existing pipeline is updated without asking: the trace
    has no [Confirm], [UpdatePipeline] gets the bucket of the application's
    region, and its error, if any, is returned as "update pipeline: ..." after
    the spinner is stopped with the failure message. *)
Theorem deployPipeline_skip_confirmation i w res :
  PipelineExists (o_pipelineDeployer (w_opts w)) i = Ok true ->
  GetAppResourcesByRegion (o_pipelineDeployer (w_opts w)) (app (w_opts w))
    (region (w_opts w)) = Ok res ->
  skipConfirmation (w_opts w) = true ->
  let o := w_opts w in
  let upto :=
    w_trace w
      ++ [ EvPipelineExists i;
           EvGetAppResourcesByRegion (app o) (region o);
           EvProgStart (fmtPipelineDeployProposalStart
                          (HighlightUserInput (pipelineName o)));
           EvUpdatePipeline i (S3Bucket res) ] in
  deployPipeline i w =
    match UpdatePipeline (o_pipelineDeployer o) i (S3Bucket res) with
    | Some err =>
        (Fail (Wrap "update pipeline" err),
         {| w_opts := o;
            w_trace := upto
              ++ [ EvProgStop (Serrorf (fmtPipelineDeployProposalFailed
                                          (HighlightUserInput (pipelineName o)))) ] |})
    | None =>
        (Ret tt,
         {| w_opts := o;
            w_trace := upto
              ++ [ EvProgStop (Ssuccessf (fmtPipelineDeployProposalComplete
                                            (HighlightUserInput (pipelineName o)))) ] |})
    end.
Proof.
  intros Hexist Hres Hskip o upto. subst o upto.
  rewrite (deployPipeline_update_path i w res Hexist Hres).
  rewrite Hskip. unfold updateWith. simpl.
  destruct (UpdatePipeline (o_pipelineDeployer (w_opts w)) i (S3Bucket res));
    do 2 f_equal; rewrite <- ?app_assoc; simpl; rewrite <- ?app_assoc; reflexivity.
Qed.

(** An error of [CreatePipeline] that is not an [ErrStackAlreadyExists] is
    returned as "create pipeline: ...", after the spinner is stopped with the
    failure message and with no success message. *)
Theorem deployPipeline_create_failure i w res err :
  PipelineExists (o_pipelineDeployer (w_opts w)) i = Ok false ->
  GetAppResourcesByRegion (o_pipelineDeployer (w_opts w)) (app (w_opts w))
    (region (w_opts w)) = Ok res ->
  (shouldPromptUpdateConnection (w_opts w) = true ->
   exists connectionName,
     src_ConnectionName (in_Source i) = Some (Ok connectionName)) ->
  CreatePipeline (o_pipelineDeployer (w_opts w)) i (S3Bucket res) = Some err ->
  errorsAs TErrStackAlreadyExists err = false ->
  let o := w_opts w in
  deployPipeline i w =
    (Fail (Wrap "create pipeline" err),
     {| w_opts := o;
        w_trace := w_trace w
          ++ [ EvPipelineExists i;
               EvGetAppResourcesByRegion (app o) (region o);
               EvProgStart (fmtPipelineDeployStart (HighlightUserInput (pipelineName o))) ]
          ++ connectionReminder o i
          ++ [ EvCreatePipeline i (S3Bucket res);
               EvProgStop (Serrorf (fmtPipelineDeployFailed
                                      (HighlightUserInput (pipelineName o)))) ] |}).
Proof.
  intros Hexist Hres Hconn Hcreate Has o. subst o.
  rewrite (deployPipeline_create_path i w res Hexist Hres Hconn).
  rewrite Hcreate, Has. simpl. unfold addEv. simpl.
  do 2 f_equal. rewrite <- !app_assoc. simpl. rewrite <- !app_assoc. reflexivity.
Qed.

(** *** How many deployment calls a run makes *)

(** The calls that change the pipeline stack. *)
Definition isMutation (e : event) : bool :=
  match e with
  | EvCreatePipeline _ _ | EvUpdatePipeline _ _ => true
  | _ => false
  end.

(** [m] only appends to the trace, and appends at most [n] calls that change
    the pipeline stack. *)
Definition mutatesAtMost {A} (n : nat) (m : M A) : Prop :=
  forall w, exists evs,
    w_trace (m w).2 = w_trace w ++ evs
    /\ length (filter (fun e => isMutation e = true) evs) <= n.

Lemma mutatesAtMost_ret {A} (a : A) : mutatesAtMost 0 (ret a).
Proof. intros w. exists []. simpl. now rewrite app_nil_r. Qed.

Lemma mutatesAtMost_fail {A} e : mutatesAtMost 0 (@fail A e).
Proof. intros w. exists []. simpl. now rewrite app_nil_r. Qed.

Lemma mutatesAtMost_panic {A} why : mutatesAtMost 0 (@panic A why).
Proof. intros w. exists []. simpl. now rewrite app_nil_r. Qed.

Lemma mutatesAtMost_self : mutatesAtMost 0 self.
Proof. intros w. exists []. simpl. now rewrite app_nil_r. Qed.

Lemma mutatesAtMost_assign f : mutatesAtMost 0 (assign f).
Proof. intros w. exists []. simpl. now rewrite app_nil_r. Qed.

Lemma mutatesAtMost_orReturn {A} (r : result A) f : mutatesAtMost 0 (orReturn r f).
Proof. intros w. exists []. destruct r; simpl; now rewrite app_nil_r. Qed.

Lemma mutatesAtMost_emit e : isMutation e = false -> mutatesAtMost 0 (emit e).
Proof.
  intros He w. exists [e]. split; [reflexivity |].
  rewrite filter_cons. destruct (decide (isMutation e = true)); [congruence | simpl; lia].
Qed.

Lemma mutatesAtMost_call {A} e (a : A) : isMutation e = false -> mutatesAtMost 0 (call e a).
Proof.
  intros He w. exists [e]. split; [reflexivity |].
  rewrite filter_cons. destruct (decide (isMutation e = true)); [congruence | simpl; lia].
Qed.

Lemma mutatesAtMost_call_1 {A} e (a : A) : mutatesAtMost 1 (call e a).
Proof.
  intros w. exists [e]. split; [reflexivity |].
  rewrite filter_cons. destruct (decide (isMutation e = true)); simpl; lia.
Qed.

Lemma mutatesAtMost_bind {A B} n k (m : M A) (f : A -> M B) :
  mutatesAtMost n m -> (forall a, mutatesAtMost k (f a)) ->
  mutatesAtMost (n + k) (bind m f).
Proof.
  intros Hm Hf w. unfold bind.
  destruct (Hm w) as [evs [Htr Hn]].
  destruct (m w) as [[a | e | why] w1]; simpl in *.
  - destruct (Hf a w1) as [evs' [Htr' Hk]].
    exists (evs ++ evs'). split.
    + rewrite Htr', Htr. now rewrite app_assoc.
    + rewrite filter_app, length_app. lia.
  - exists evs. split; [exact Htr | lia].
  - exists evs. split; [exact Htr | lia].
Qed.

Lemma mutatesAtMost_quiet_then {A B} n (m : M A) (f : A -> M B) :
  mutatesAtMost 0 m -> (forall a, mutatesAtMost n (f a)) ->
  mutatesAtMost n (bind m f).
Proof. intros Hm Hf. exact (mutatesAtMost_bind 0 n m f Hm Hf). Qed.

Lemma mutatesAtMost_then_quiet {A B} n (m : M A) (f : A -> M B) :
  mutatesAtMost n m -> (forall a, mutatesAtMost 0 (f a)) ->
  mutatesAtMost n (bind m f).
Proof.
  intros Hm Hf. replace n with (n + 0) by lia.
  exact (mutatesAtMost_bind n 0 m f Hm Hf).
Qed.

Lemma mutatesAtMost_wrapping {A} n (m : M A) f :
  mutatesAtMost n m -> mutatesAtMost n (wrapping m f).
Proof.
  intros Hm w. unfold wrapping. specialize (Hm w).
  destruct (m w) as [[a | e | why] w1]; exact Hm.
Qed.

Lemma mutatesAtMost_weaken {A} n n' (m : M A) :
  n <= n' -> mutatesAtMost n m -> mutatesAtMost n' m.
Proof.
  intros Hle Hm w. destruct (Hm w) as [evs [Htr Hn]].
  exists evs. split; [exact Htr | lia].
Qed.

#[local] Hint Resolve mutatesAtMost_ret mutatesAtMost_fail mutatesAtMost_panic
  mutatesAtMost_self mutatesAtMost_assign mutatesAtMost_orReturn
  mutatesAtMost_wrapping : cli.

(** Proves [mutatesAtMost 0 m] for a method that makes no deployment call. *)
Ltac quiet :=
  repeat
    lazymatch goal with
    | |- mutatesAtMost _ (bind _ _) =>
        apply mutatesAtMost_quiet_then; [ | intros ? ]
    | |- mutatesAtMost _ (wrapping _ _) => apply mutatesAtMost_wrapping
    | |- mutatesAtMost _ (emit _) => apply mutatesAtMost_emit; reflexivity
    | |- mutatesAtMost _ (call _ _) => apply mutatesAtMost_call; reflexivity
    | |- mutatesAtMost _ (progStart _) => apply mutatesAtMost_emit; reflexivity
    | |- mutatesAtMost _ (progStop _) => apply mutatesAtMost_emit; reflexivity
    | |- mutatesAtMost _ logInfoln => apply mutatesAtMost_emit; reflexivity
    | |- mutatesAtMost _ (logInfof _) => apply mutatesAtMost_emit; reflexivity
    | |- mutatesAtMost _ (if ?b then _ else _) => destruct b
    | |- mutatesAtMost _ (match ?x with _ => _ end) => destruct x
    | |- _ => solve [ auto with cli ]
    end.

Lemma convertStagesLoop_quiet workloads ms acc :
  mutatesAtMost 0 (convertStagesLoop workloads ms acc).
Proof. revert acc. induction ms as [| stage rest IH]; intros acc; simpl; quiet. Qed.

Lemma convertStages_quiet ms : mutatesAtMost 0 (convertStages ms).
Proof. unfold convertStages. quiet. apply convertStagesLoop_quiet. Qed.

Lemma getArtifactBuckets_quiet : mutatesAtMost 0 getArtifactBuckets.
Proof. unfold getArtifactBuckets. quiet. Qed.

Lemma getBucketName_quiet : mutatesAtMost 0 getBucketName.
Proof. unfold getBucketName. quiet. Qed.

Lemma shouldUpdate_quiet : mutatesAtMost 0 shouldUpdate.
Proof. unfold shouldUpdate. quiet. Qed.

#[local] Hint Resolve convertStages_quiet getArtifactBuckets_quiet
  getBucketName_quiet shouldUpdate_quiet : cli.

(** Proves [mutatesAtMost 1 m]: the quiet steps first, then the one call. *)
Ltac oneCall :=
  repeat
    lazymatch goal with
    | |- mutatesAtMost 1 (bind (call (EvCreatePipeline _ _) _) _) =>
        apply mutatesAtMost_then_quiet;
          [ apply mutatesAtMost_call_1 | intros ?; solve [ quiet ] ]
    | |- mutatesAtMost 1 (bind (call (EvUpdatePipeline _ _) _) _) =>
        apply mutatesAtMost_then_quiet;
          [ apply mutatesAtMost_call_1 | intros ?; solve [ quiet ] ]
    | |- mutatesAtMost 1 (bind _ _) =>
        apply mutatesAtMost_quiet_then; [ solve [ quiet ] | intros ? ]
    | |- mutatesAtMost 1 (if ?b then _ else _) => destruct b
    | |- mutatesAtMost 1 (match ?x with _ => _ end) => destruct x
    | |- mutatesAtMost 1 (deployPipeline _) => fail
    | |- _ => solve [ apply (mutatesAtMost_weaken 0 1); [ lia | quiet ] ]
    end.

Lemma deployPipeline_mutatesAtMost_1 i : mutatesAtMost 1 (deployPipeline i).
Proof. unfold deployPipeline. oneCall. Qed.

(** Whatever the collaborators answer, [Execute] only appends to the trace and
    calls [CreatePipeline] or [UpdatePipeline] at most once in all: never both,
    never one of them twice. *)
Theorem Execute_at_most_one_deployment_call w :
  exists evs,
    w_trace (Execute w).2 = w_trace w ++ evs
    /\ length (filter (fun e => isMutation e = true) evs) <= 1.
Proof.
  revert w. change (mutatesAtMost 1 Execute). unfold Execute.
  oneCall; apply deployPipeline_mutatesAtMost_1.
Qed.

(** *** [convertStages] and [getArtifactBuckets] *)

(** The deployment stage of a manifest stage deployed to [env]. *)
Definition stageFor (workloads : list string) (stage : ManifestStage)
    (env : Environment) : PipelineStage :=
  {| LocalWorkloads := workloads;
     AssociatedEnv :=
       {| ae_Name := stage_Name stage;
          ae_Region := env_Region env;
          ae_AccountID := env_AccountID env |};
     RequiresApproval := stage_RequiresApproval stage;
     TestCommands := stage_TestCommands stage |}.

Definition lookups (appN : string) (ms : list ManifestStage) : list event :=
  map (fun stage => EvGetEnvironment appN (stage_Name stage)) ms.

Lemma convertStagesLoop_all_found workloads envOf ms : forall acc w,
  Forall (fun stage =>
            GetEnvironment (envStore (w_opts w)) (appName (w_opts w))
              (stage_Name stage) = Ok (envOf (stage_Name stage))) ms ->
  convertStagesLoop workloads ms acc w =
    (Ret (acc ++ map (fun stage => stageFor workloads stage (envOf (stage_Name stage))) ms),
     {| w_opts := w_opts w;
        w_trace := w_trace w ++ lookups (appName (w_opts w)) ms |}).
Proof.
  induction ms as [| stage rest IH]; intros acc [o tr] Hall; simpl in *.
  - unfold ret. now rewrite !app_nil_r.
  - inversion Hall as [| ? ? Hstage Hrest]; subst.
    step. simpl. rewrite Hstage. simpl. step.
    rewrite IH by exact Hrest. simpl.
    unfold stageFor. now rewrite <- !app_assoc.
Qed.

Lemma convertStagesLoop_first_missing workloads envOf found stage rest err :
  forall acc w,
  Forall (fun st =>
            GetEnvironment (envStore (w_opts w)) (appName (w_opts w))
              (stage_Name st) = Ok (envOf (stage_Name st))) found ->
  GetEnvironment (envStore (w_opts w)) (appName (w_opts w)) (stage_Name stage)
    = Err err ->
  convertStagesLoop workloads (found ++ stage :: rest) acc w =
    (Fail (Wrap ("get environment " +:+ stage_Name stage +:+ " in application "
                 +:+ appName (w_opts w)) err),
     {| w_opts := w_opts w;
        w_trace := w_trace w ++ lookups (appName (w_opts w)) (found ++ [stage]) |}).
Proof.
  induction found as [| st found IH]; intros acc [o tr] Hall Hbad; simpl in *.
  - step. simpl. rewrite Hbad. reflexivity.
  - inversion Hall as [| ? ? Hst Hfound]; subst.
    step. simpl. rewrite Hst. simpl. step.
    rewrite IH by assumption. simpl. now rewrite <- !app_assoc.
Qed.

Lemma convertStages_all_found ms w workloads envOf :
  ListWorkloads (ws (w_opts w)) = Ok workloads ->
  Forall (fun stage =>
            GetEnvironment (envStore (w_opts w)) (appName (w_opts w))
              (stage_Name stage) = Ok (envOf (stage_Name stage))) ms ->
  convertStages ms w =
    (Ret (map (fun stage => stageFor workloads stage (envOf (stage_Name stage))) ms),
     {| w_opts := w_opts w;
        w_trace := w_trace w ++ EvListWorkloads :: lookups (appName (w_opts w)) ms |}).
Proof.
  intros Hwl Hall. destruct w as [o tr]. simpl in *.
  unfold convertStages. step. simpl. rewrite Hwl. simpl. step.
  rewrite (convertStagesLoop_all_found workloads envOf) by exact Hall.
  simpl. now rewrite <- !app_assoc.
Qed.

(** When every stage names an environment of the application,
    [convertStages] returns one deployment stage per manifest stage, in the
    order of the manifest, each with the region and account of its
    environment and with the workloads of the workspace; the environments are
    looked up once each, in that order. *)
Theorem convertStages_one_stage_per_environment ms w workloads envOf :
  ListWorkloads (ws (w_opts w)) = Ok workloads ->
  Forall (fun stage =>
            GetEnvironment (envStore (w_opts w)) (appName (w_opts w))
              (stage_Name stage) = Ok (envOf (stage_Name stage))) ms ->
  convertStages ms w =
    (Ret (map (fun stage => stageFor workloads stage (envOf (stage_Name stage))) ms),
     {| w_opts := w_opts w;
        w_trace := w_trace w ++ EvListWorkloads :: lookups (appName (w_opts w)) ms |}).
Proof.
  intros Hwl Hall. destruct w as [o tr]. simpl in *.
  unfold convertStages. step. simpl. rewrite Hwl. simpl. step.
  rewrite (convertStagesLoop_all_found workloads envOf) by exact Hall.
  simpl. now rewrite <- !app_assoc.
Qed.

(** [convertStages] stops at the first stage whose environment cannot be
    found: the error names that stage and the application, and the
    environments of the stages after it are not looked up. *)
Theorem convertStages_stops_at_first_missing_environment
    found stage rest w workloads envOf err :
  ListWorkloads (ws (w_opts w)) = Ok workloads ->
  Forall (fun st =>
            GetEnvironment (envStore (w_opts w)) (appName (w_opts w))
              (stage_Name st) = Ok (envOf (stage_Name st))) found ->
  GetEnvironment (envStore (w_opts w)) (appName (w_opts w)) (stage_Name stage)
    = Err err ->
  convertStages (found ++ stage :: rest) w =
    (Fail (Wrap ("get environment " +:+ stage_Name stage +:+ " in application "
                 +:+ appName (w_opts w)) err),
     {| w_opts := w_opts w;
        w_trace := w_trace w
          ++ EvListWorkloads :: lookups (appName (w_opts w)) (found ++ [stage]) |}).
Proof.
  intros Hwl Hall Hbad. destruct w as [o tr]. simpl in *.
  unfold convertStages. step. simpl. rewrite Hwl. simpl. step.
  rewrite (convertStagesLoop_first_missing workloads envOf found stage rest err)
    by assumption.
  simpl. now rewrite <- !app_assoc.
Qed.

(** *** [Execute]: from the manifest to the deployment *)

(** The source [Execute] hands to [deploy.PipelineSourceFromManifest], and the
    call it makes to get there: the manifest's source as it is when it names no
    connection, and with the ARN of the connection added under
    "connection_arn" when it names one that CodeStar knows. *)
Inductive connectionResolved (o : deployPipelineOpts) (src : Source)
  : Source -> list event -> Prop :=
| NoConnection :
    Properties src !! "connection_name" = None ->
    connectionResolved o src src []
| KnownConnection name arn :
    Properties src !! "connection_name" = Some (PString name) ->
    GetConnectionARN (o_codestar o) name = Ok arn ->
    connectionResolved o src
      {| ProviderName := ProviderName src;
         Properties := <["connection_arn" := PString arn]> (Properties src) |}
      [ EvGetConnectionARN name ].

(** [Execute] hands [deployPipeline] an input assembled from the manifest and
    the application: the manifest's name, the converted source and build, one
    stage per manifest stage, one artifact bucket per regional resource of the
    application, and the application's tags. By then [o.pipelineName] and
    [o.shouldPromptUpdateConnection] are assigned, and the collaborators were
    called in the order of the trace. *)
Theorem Execute_assembles_deploy_input
    w data p src src' evs source promptUpdate workloads envOf resources :
  AddPipelineResourcesToApp (o_pipelineDeployer (w_opts w)) (app (w_opts w))
    (region (w_opts w)) = None ->
  ReadPipelineManifest (ws (w_opts w)) = Ok data ->
  UnmarshalPipeline data = Ok p ->
  String.length (Name p) <= 100 ->
  pipe_Source p = Some src ->
  connectionResolved (w_opts w) src src' evs ->
  PipelineSourceFromManifest src' = Ok (source, promptUpdate) ->
  ListWorkloads (ws (w_opts w)) = Ok workloads ->
  Forall (fun stage =>
            GetEnvironment (envStore (w_opts w)) (appName (w_opts w))
              (stage_Name stage) = Ok (envOf (stage_Name stage))) (Stages p) ->
  GetRegionalAppResources (o_pipelineDeployer (w_opts w)) (app (w_opts w))
    = Ok resources ->
  let o := w_opts w in
  Execute w =
    deployPipeline
      {| in_AppName := appName o;
         in_Name := Name p;
         in_Source := source;
         in_Build := PipelineBuildFromManifest (pipe_Build p);
         in_Stages :=
           map (fun stage => stageFor workloads stage (envOf (stage_Name stage)))
               (Stages p);
         in_ArtifactBuckets :=
           map (fun resource =>
                  {| BucketName := S3Bucket resource;
                     KeyArn := KMSKeyARN resource |}) resources;
         in_AdditionalTags := app_Tags (app o) |}
      {| w_opts := set_shouldPromptUpdateConnection promptUpdate
                     (set_pipelineName (Name p) o);
         w_trace := w_trace w ++ bootstrapTrace o ++ evs
                      ++ EvListWorkloads :: lookups (appName o) (Stages p)
                      ++ [ EvGetRegionalAppResources (app o) ] |}.
Proof.
  intros Hadd Hread Hunm Hlen Hsrc Hconn Hconv Hwl Henvs Hres o. subst o.
  destruct w as [o tr]. simpl in *.
  unfold Execute. step. simpl. rewrite Hadd. step. simpl.
  rewrite Hread. simpl. step. rewrite Hunm. simpl. step.
  destruct (Nat.ltb_spec 100 (String.length (Name p))) as [Hlt | _]; [lia |].
  rewrite bind_assign. simpl. rewrite Hsrc.
  assert (Hrest : forall tr0,
    (let* stages := wrapping (convertStages (Stages p))
                      (Errorf_w "convert environments to deployment stage") in
     let* artifactBuckets := wrapping getArtifactBuckets
                               (Errorf_w "get cross-regional resources") in
     deployPipeline
       {| in_AppName := appName o; in_Name := Name p; in_Source := source;
          in_Build := PipelineBuildFromManifest (pipe_Build p);
          in_Stages := stages; in_ArtifactBuckets := artifactBuckets;
          in_AdditionalTags := app_Tags (app o) |})
      {| w_opts := set_shouldPromptUpdateConnection promptUpdate
                     (set_pipelineName (Name p) o);
         w_trace := tr0 |}
    = deployPipeline
        {| in_AppName := appName o; in_Name := Name p; in_Source := source;
           in_Build := PipelineBuildFromManifest (pipe_Build p);
           in_Stages :=
             map (fun stage => stageFor workloads stage (envOf (stage_Name stage)))
                 (Stages p);
           in_ArtifactBuckets :=
             map (fun resource =>
                    {| BucketName := S3Bucket resource;
                       KeyArn := KMSKeyARN resource |}) resources;
           in_AdditionalTags := app_Tags (app o) |}
        {| w_opts := set_shouldPromptUpdateConnection promptUpdate
                       (set_pipelineName (Name p) o);
           w_trace := tr0 ++ EvListWorkloads :: lookups (appName o) (Stages p)
                        ++ [ EvGetRegionalAppResources (app o) ] |}).
  { intros tr0.
    erewrite bind_wrapping_Ret
      by (apply (convertStages_all_found _ _ workloads envOf);
          [exact Hwl | exact Henvs]).
    simpl.
    erewrite bind_wrapping_Ret
      by (unfold getArtifactBuckets; step; simpl; rewrite Hres; reflexivity).
    simpl. unfold addEv. simpl. now rewrite <- !app_assoc. }
  inversion Hconn as [Hnone | name arn Hname Harn]; subst.
  - rewrite Hnone. step. rewrite Hconv. simpl. step.
    rewrite bind_assign. simpl. rewrite Hrest.
    unfold addEv, bootstrapTrace. simpl.
    now rewrite <- !app_assoc.
  - rewrite Hname. step. simpl. rewrite Harn. simpl. step.
    rewrite Hconv. simpl. step.
    rewrite bind_assign. simpl. rewrite Hrest.
    unfold addEv, bootstrapTrace. simpl.
    now rewrite <- !app_assoc.
Qed.

(** A "connection_name" of the manifest that is not a string makes [Execute]
    panic on the type assertion, after [o.pipelineName] is assigned and before
    CodeStar, the environments or the deployer are asked anything. *)
Theorem Execute_panics_on_non_string_connection w data p src repr :
  AddPipelineResourcesToApp (o_pipelineDeployer (w_opts w)) (app (w_opts w))
    (region (w_opts w)) = None ->
  ReadPipelineManifest (ws (w_opts w)) = Ok data ->
  UnmarshalPipeline data = Ok p ->
  String.length (Name p) <= 100 ->
  pipe_Source p = Some src ->
  Properties src !! "connection_name" = Some (PNonString repr) ->
  exists why,
    Execute w =
      (Panic why,
       {| w_opts := set_pipelineName (Name p) (w_opts w);
          w_trace := w_trace w ++ bootstrapTrace (w_opts w) |}).
Proof.
  intros Hadd Hread Hunm Hlen Hsrc Hprop.
  destruct w as [o tr]. simpl in *.
  unfold Execute. step. simpl. rewrite Hadd. step. simpl.
  rewrite Hread. simpl. step. rewrite Hunm. simpl. step.
  destruct (Nat.ltb_spec 100 (String.length (Name p))) as [Hlt | _]; [lia |].
  rewrite bind_assign. simpl. rewrite Hsrc, Hprop.
  eexists. unfold bind, panic, addEv, bootstrapTrace. simpl.
  now rewrite <- !app_assoc.
Qed.
End Command.

(** *** A concrete run: the collaborators as the command's tests mock them *)

Definition idColor (s : string) : string := s.

Definition mockApp : Application :=
  {| app_Name := "badgoose"; app_Tags := {[ "owner" := "boss" ]} |}.

Definition mockResources : AppRegionalResources :=
  {| S3Bucket := "badgoose-pipeline-bucket";
     KMSKeyARN := "arn:aws:kms:us-west-2:000000000:key/1234abcd" |}.

Definition mockSource : Source :=
  {| ProviderName := "GitHub";
     Properties := {[ "connection_name" := PString "my-connection";
                      "repository" := PString "badgoose/repo" ]} |}.

Definition mockPipeline (name : string) : @Pipeline unit :=
  {| Name := name;
     pipe_Source := Some mockSource;
     pipe_Build := None;
     Stages := [ {| stage_Name := "test"; stage_RequiresApproval := false;
                    stage_TestCommands := [ "make test" ] |};
                 {| stage_Name := "prod"; stage_RequiresApproval := true;
                    stage_TestCommands := [] |} ] |}.

Definition mockDeploySource : DeploySource :=
  {| src_repr := "&{GitHub badgoose/repo}";
     src_ConnectionName := Some (Ok "my-connection") |}.

(** The provider's answer to a create call for a stack that is already
    there, wrapped once on its way up. *)
Definition errAlreadyExists : error :=
  Wrap "create stack pipeline-badgoose"
    (Typed TErrStackAlreadyExists "stack pipeline-badgoose already exists").

Definition mockDeployer (createAnswer : option error) : @pipelineDeployer unit :=
  {| AddPipelineResourcesToApp := fun _ _ => None;
     PipelineExists := fun _ => Ok false;
     CreatePipeline := fun _ _ => createAnswer;
     UpdatePipeline := fun _ _ => None;
     GetRegionalAppResources := fun _ => Ok [ mockResources ];
     GetAppResourcesByRegion := fun _ _ => Ok mockResources |}.

Definition mockOpts (createAnswer : option error) : @deployPipelineOpts unit :=
  {| appName := "badgoose";
     skipConfirmation := false;
     o_pipelineDeployer := mockDeployer createAnswer;
     app := mockApp;
     prompt := {| Confirm := fun _ _ => Ok true |};
     region := "us-west-2";
     envStore :=
       {| GetEnvironment := fun a e =>
            Ok {| env_Name := e; env_Region := "us-west-2";
                  env_AccountID := "000000000" |} |};
     ws := {| ReadPipelineManifest := Ok []; ListWorkloads := Ok [ "frontend" ] |};
     o_codestar := {| GetConnectionARN := fun _ => Ok "arn:aws:codestar:conn" |};
     pipelineName := "";
     shouldPromptUpdateConnection := false |}.

Definition mockWorld (createAnswer : option error) : @world unit :=
  {| w_opts := mockOpts createAnswer; w_trace := [] |}.

Definition mockInput : @CreatePipelineInput unit :=
  {| in_AppName := "badgoose";
     in_Name := "pipeline-badgoose";
     in_Source := mockDeploySource;
     in_Build := tt;
     in_Stages := [];
     in_ArtifactBuckets := [];
     in_AdditionalTags := ∅ |}.

Definition runExecute (name : string) (createAnswer : option error)
  : outcome unit * @world unit :=
  Execute (fun _ => Ok (mockPipeline name))
    (fun _ => Ok (mockDeploySource, true)) (fun _ => tt)
    idColor idColor idColor idColor idColor (mockWorld createAnswer).

Definition runDeployPipeline (createAnswer : option error)
  : outcome unit * @world unit :=
  deployPipeline idColor idColor idColor idColor idColor mockInput
    (mockWorld createAnswer).

(** A name of [n] bytes. *)
Definition nameOfLength (n : nat) : string :=
  String.string_of_list_ascii (replicate n (Ascii.ascii_of_nat 97)).

(** The whole command on a fresh pipeline: every collaborator is called once,
    in the order of the source. *)
Example Execute_creates_pipeline :
  (runExecute "pipeline-badgoose" None).1 = Ret tt
  /\ map (fun ev =>
            match ev with
            | EvAddPipelineResourcesToApp _ _ => "AddPipelineResourcesToApp"
            | EvReadPipelineManifest => "ReadPipelineManifest"
            | EvGetConnectionARN _ => "GetConnectionARN"
            | EvListWorkloads => "ListWorkloads"
            | EvGetEnvironment _ e => "GetEnvironment " +:+ e
            | EvGetRegionalAppResources _ => "GetRegionalAppResources"
            | EvPipelineExists _ => "PipelineExists"
            | EvGetAppResourcesByRegion _ _ => "GetAppResourcesByRegion"
            | EvCreatePipeline _ b => "CreatePipeline " +:+ b
            | EvUpdatePipeline _ _ => "UpdatePipeline"
            | EvConfirm _ _ => "Confirm"
            | EvProgStart _ => "Start"
            | EvProgStop _ => "Stop"
            | EvLogInfo _ => "Info"
            end) (w_trace (runExecute "pipeline-badgoose" None).2)
     = [ "Start"; "AddPipelineResourcesToApp"; "Stop"; "ReadPipelineManifest";
         "GetConnectionARN"; "ListWorkloads"; "GetEnvironment test";
         "GetEnvironment prod"; "GetRegionalAppResources"; "PipelineExists";
         "GetAppResourcesByRegion"; "Start"; "Info"; "Info"; "Info";
         "CreatePipeline badgoose-pipeline-bucket"; "Stop" ].
Proof. split; vm_compute; reflexivity. Qed.

Example Execute_surfaces_other_create_errors :
  (runExecute "pipeline-badgoose" (Some (New "throttled"))).1
  = Fail (Wrap "create pipeline" (New "throttled")).
Proof. vm_compute. reflexivity. Qed.

Example Execute_name_of_100_bytes :
  (runExecute (nameOfLength 100) None).1 = Ret tt.
Proof. vm_compute. reflexivity. Qed.

Example Execute_name_of_101_bytes :
  (runExecute (nameOfLength 101) None).1
  = Fail (New ("pipeline name '" +:+ nameOfLength 101
               +:+ "' must be shorter than 100 characters")).
Proof. vm_compute. reflexivity. Qed.

(** Witness of C1: a create call answered by a wrapped
    [ErrStackAlreadyExists]. *)
Lemma deployPipeline_already_exists_witness :
  errorsAs TErrStackAlreadyExists errAlreadyExists = true
  /\ (runDeployPipeline (Some errAlreadyExists)).1 = Ret tt.
Proof.
  split; [reflexivity |].
  unfold runDeployPipeline.
  rewrite (deployPipeline_already_exists_is_success
             idColor idColor idColor idColor idColor
             mockInput (mockWorld (Some errAlreadyExists))
             mockResources errAlreadyExists);
    try reflexivity.
  intros Hprompt. discriminate Hprompt.
Defined.

(** Witness of C9: a name of 101 bytes is refused, one of 100 bytes passes. *)
Lemma Execute_pipeline_name_check_witness :
  (runExecute (nameOfLength 101) None).1
    = Fail (errPipelineNameTooLong (nameOfLength 101))
  /\ pipelineName (w_opts (runExecute (nameOfLength 100) None).2) = nameOfLength 100.
Proof.
  split.
  - refine (proj2 (proj2 (proj2 (proj1
      (Execute_pipeline_name_check
         (fun _ => Ok (mockPipeline (nameOfLength 101)))
         (fun _ => Ok (mockDeploySource, true)) (fun _ => tt)
         idColor idColor idColor idColor idColor (mockWorld None)
         [] (mockPipeline (nameOfLength 101)) eq_refl eq_refl) _))) eq_refl).
    vm_compute. lia.
  - refine (proj2 (proj2
      (Execute_pipeline_name_check
         (fun _ => Ok (mockPipeline (nameOfLength 100)))
         (fun _ => Ok (mockDeploySource, true)) (fun _ => tt)
         idColor idColor idColor idColor idColor (mockWorld None)
         [] (mockPipeline (nameOfLength 100)) eq_refl eq_refl) _ eq_refl)).
    vm_compute. lia.
Defined.

(** *** A name of two-byte characters *)

(** The letter e with an acute accent: one character, two bytes. *)
Definition eAcute : string :=
  String (Ascii.ascii_of_nat 195) (String (Ascii.ascii_of_nat 169) EmptyString).

(** A name of [n] such letters. *)
Fixpoint accentedName (n : nat) : string :=
  match n with
  | 0 => EmptyString
  | S m => eAcute +:+ accentedName m
  end.

(** C9, as stated, fails on a name of 51 characters: its encoding has 102
    bytes, and [Execute] refuses it with the pipeline-name error, leaving
    [o.pipelineName] unassigned, although it has fewer than 100 characters. *)
Lemma Execute_refuses_a_name_of_51_characters :
  characters (accentedName 51) = 51
  /\ String.length (accentedName 51) = 102
  /\ (runExecute (accentedName 51) None).1
     = Fail (errPipelineNameTooLong (accentedName 51))
  /\ w_opts (runExecute (accentedName 51) None).2 = mockOpts None.
Proof. vm_compute. repeat split. Qed.


(** *** More concrete runs *)

(** The collaborators again, with the answers that vary between runs:
    whether the pipeline exists, what the deployer and the user answer, and
    which environments the store knows. *)
Definition mockOptsWith (skip pipelineExists : bool)
    (createAnswer updateAnswer : option error) (confirmAnswer : result bool)
    (envs : string -> result Environment) : @deployPipelineOpts unit :=
  {| appName := "badgoose";
     skipConfirmation := skip;
     o_pipelineDeployer :=
       {| AddPipelineResourcesToApp := fun _ _ => None;
          PipelineExists := fun _ => Ok pipelineExists;
          CreatePipeline := fun _ _ => createAnswer;
          UpdatePipeline := fun _ _ => updateAnswer;
          GetRegionalAppResources := fun _ => Ok [ mockResources ];
          GetAppResourcesByRegion := fun _ _ => Ok mockResources |};
     app := mockApp;
     prompt := {| Confirm := fun _ _ => confirmAnswer |};
     region := "us-west-2";
     envStore := {| GetEnvironment := fun _ e => envs e |};
     ws := {| ReadPipelineManifest := Ok []; ListWorkloads := Ok [ "frontend" ] |};
     o_codestar := {| GetConnectionARN := fun _ => Ok "arn:aws:codestar:conn" |};
     pipelineName := "pipeline-badgoose";
     shouldPromptUpdateConnection := false |}.

Definition mockEnv (e : string) : Environment :=
  {| env_Name := e; env_Region := "us-west-2"; env_AccountID := "000000000" |}.

Definition allEnvs (e : string) : result Environment := Ok (mockEnv e).

(** A store that knows every environment but "prod". *)
Definition withoutProd (e : string) : result Environment :=
  if decide (e = "prod") then Err (New "couldn't find environment prod")
  else Ok (mockEnv e).

Definition freshWorld (o : @deployPipelineOpts unit) : @world unit :=
  {| w_opts := o; w_trace := [] |}.

Definition deployWith (o : @deployPipelineOpts unit) : outcome unit * @world unit :=
  deployPipeline idColor idColor idColor idColor idColor mockInput (freshWorld o).

Definition shortTrace (w : @world unit) : list string :=
  map (fun ev =>
         match ev with
         | EvAddPipelineResourcesToApp _ _ => "AddPipelineResourcesToApp"
         | EvReadPipelineManifest => "ReadPipelineManifest"
         | EvGetConnectionARN c => "GetConnectionARN " +:+ c
         | EvListWorkloads => "ListWorkloads"
         | EvGetEnvironment _ e => "GetEnvironment " +:+ e
         | EvGetRegionalAppResources _ => "GetRegionalAppResources"
         | EvPipelineExists _ => "PipelineExists"
         | EvGetAppResourcesByRegion _ _ => "GetAppResourcesByRegion"
         | EvCreatePipeline _ b => "CreatePipeline " +:+ b
         | EvUpdatePipeline _ b => "UpdatePipeline " +:+ b
         | EvConfirm _ _ => "Confirm"
         | EvProgStart _ => "Start"
         | EvProgStop _ => "Stop"
         | EvLogInfo _ => "Info"
         end) (w_trace w).

Lemma deployPipeline_declined_update_witness :
  (deployWith (mockOptsWith false true None None (Ok false) allEnvs)).1 = Ret tt
  /\ shortTrace (deployWith (mockOptsWith false true None None (Ok false) allEnvs)).2
     = [ "PipelineExists"; "GetAppResourcesByRegion"; "Confirm" ].
Proof.
  unfold deployWith.
  rewrite (deployPipeline_declined_update idColor idColor idColor idColor idColor
             mockInput
             (freshWorld (mockOptsWith false true None None (Ok false) allEnvs))
             mockResources eq_refl eq_refl eq_refl eq_refl).
  split; reflexivity.
Defined.

Lemma deployPipeline_skip_confirmation_witness :
  (deployWith (mockOptsWith true true None (Some (New "throttled")) (Ok false) allEnvs)).1
    = Fail (Wrap "update pipeline" (New "throttled"))
  /\ shortTrace
       (deployWith (mockOptsWith true true None (Some (New "throttled")) (Ok false)
                      allEnvs)).2
     = [ "PipelineExists"; "GetAppResourcesByRegion"; "Start";
         "UpdatePipeline badgoose-pipeline-bucket"; "Stop" ].
Proof.
  unfold deployWith.
  rewrite (deployPipeline_skip_confirmation idColor idColor idColor idColor idColor
             mockInput
             (freshWorld (mockOptsWith true true None (Some (New "throttled"))
                            (Ok false) allEnvs))
             mockResources eq_refl eq_refl eq_refl).
  split; reflexivity.
Defined.

Lemma deployPipeline_create_failure_witness :
  (deployWith (mockOptsWith false false (Some (New "throttled")) None (Ok true)
                 allEnvs)).1
    = Fail (Wrap "create pipeline" (New "throttled"))
  /\ shortTrace
       (deployWith (mockOptsWith false false (Some (New "throttled")) None (Ok true)
                      allEnvs)).2
     = [ "PipelineExists"; "GetAppResourcesByRegion"; "Start";
         "CreatePipeline badgoose-pipeline-bucket"; "Stop" ].
Proof.
  unfold deployWith.
  rewrite (deployPipeline_create_failure idColor idColor idColor idColor idColor
             mockInput
             (freshWorld (mockOptsWith false false (Some (New "throttled")) None
                            (Ok true) allEnvs))
             mockResources (New "throttled") eq_refl eq_refl);
    [ split; reflexivity | intros H; discriminate H | reflexivity | reflexivity ].
Defined.

Definition stagesOf (names : list string) : list ManifestStage :=
  map (fun n => {| stage_Name := n; stage_RequiresApproval := false;
                   stage_TestCommands := [] |}) names.

Lemma convertStages_one_stage_per_environment_witness :
  (convertStages (stagesOf [ "test"; "beta"; "prod" ])
     (freshWorld (mockOptsWith false false None None (Ok true) allEnvs))).1
  = Ret (map (fun n => {| LocalWorkloads := [ "frontend" ];
                          AssociatedEnv :=
                            {| ae_Name := n; ae_Region := "us-west-2";
                               ae_AccountID := "000000000" |};
                          RequiresApproval := false;
                          TestCommands := [] |})
             [ "test"; "beta"; "prod" ]).
Proof.
  rewrite (convertStages_one_stage_per_environment
             (stagesOf [ "test"; "beta"; "prod" ])
             (freshWorld (mockOptsWith false false None None (Ok true) allEnvs))
             [ "frontend" ] mockEnv eq_refl).
  - reflexivity.
  - repeat constructor.
Defined.

Lemma convertStages_stops_at_first_missing_environment_witness :
  shortTrace
    (convertStages (stagesOf [ "test"; "prod"; "gamma" ])
       (freshWorld (mockOptsWith false false None None (Ok true) withoutProd))).2
  = [ "ListWorkloads"; "GetEnvironment test"; "GetEnvironment prod" ].
Proof.
  change (stagesOf [ "test"; "prod"; "gamma" ])
    with (stagesOf [ "test" ]
            ++ {| stage_Name := "prod"; stage_RequiresApproval := false;
                  stage_TestCommands := [] |} :: stagesOf [ "gamma" ]).
  rewrite (convertStages_stops_at_first_missing_environment
             (stagesOf [ "test" ])
             {| stage_Name := "prod"; stage_RequiresApproval := false;
                stage_TestCommands := [] |}
             (stagesOf [ "gamma" ])
             (freshWorld (mockOptsWith false false None None (Ok true) withoutProd))
             [ "frontend" ] mockEnv (New "couldn't find environment prod") eq_refl).
  - reflexivity.
  - repeat constructor.
  - reflexivity.
Defined.

Definition executeWith (p : @Pipeline unit) (o : @deployPipelineOpts unit)
  : outcome unit * @world unit :=
  Execute (fun _ => Ok p) (fun _ => Ok (mockDeploySource, true)) (fun _ => tt)
    idColor idColor idColor idColor idColor (freshWorld o).

Lemma Execute_assembles_deploy_input_witness :
  shortTrace
    (executeWith (mockPipeline "pipeline-badgoose")
       (mockOptsWith true true None None (Ok true) allEnvs)).2
  = [ "Start"; "AddPipelineResourcesToApp"; "Stop"; "ReadPipelineManifest";
      "GetConnectionARN my-connection"; "ListWorkloads"; "GetEnvironment test";
      "GetEnvironment prod"; "GetRegionalAppResources"; "PipelineExists";
      "GetAppResourcesByRegion"; "Start";
      "UpdatePipeline badgoose-pipeline-bucket"; "Stop" ].
Proof.
  unfold executeWith.
  rewrite (Execute_assembles_deploy_input
             (fun _ => Ok (mockPipeline "pipeline-badgoose"))
             (fun _ => Ok (mockDeploySource, true)) (fun _ => tt)
             idColor idColor idColor idColor idColor
             (freshWorld (mockOptsWith true true None None (Ok true) allEnvs))
             [] (mockPipeline "pipeline-badgoose") mockSource
             {| ProviderName := "GitHub";
                Properties := <["connection_arn" := PString "arn:aws:codestar:conn"]>
                                (Properties mockSource) |}
             [ EvGetConnectionARN "my-connection" ]
             mockDeploySource true [ "frontend" ] mockEnv [ mockResources ]
             eq_refl eq_refl eq_refl).
  - vm_compute. reflexivity.
  - vm_compute. lia.
  - reflexivity.
  - apply (KnownConnection _ mockSource "my-connection" "arn:aws:codestar:conn");
      vm_compute; reflexivity.
  - reflexivity.
  - reflexivity.
  - repeat constructor.
  - reflexivity.
Defined.

Definition badConnectionPipeline : @Pipeline unit :=
  {| Name := "pipeline-badgoose";
     pipe_Source :=
       Some {| ProviderName := "GitHub";
               Properties := {[ "connection_name" := PNonString "42" ]} |};
     pipe_Build := None;
     Stages := [] |}.

Lemma Execute_panics_on_non_string_connection_witness :
  exists why,
    (executeWith badConnectionPipeline
       (mockOptsWith false false None None (Ok true) allEnvs)).1 = Panic why.
Proof.
  destruct (Execute_panics_on_non_string_connection
              (fun _ => Ok badConnectionPipeline)
              (fun _ => Ok (mockDeploySource, true)) (fun _ => tt)
              idColor idColor idColor idColor idColor
              (freshWorld (mockOptsWith false false None None (Ok true) allEnvs))
              [] badConnectionPipeline
              {| ProviderName := "GitHub";
                 Properties := {[ "connection_name" := PNonString "42" ]} |}
              "42" eq_refl eq_refl eq_refl)
    as [why Hrun].
  - vm_compute. lia.
  - reflexivity.
  - vm_compute. reflexivity.
  - exists why. unfold executeWith. rewrite Hrun. reflexivity.
Defined.
End Cli.

(** ** Facts about package [stack] *)

Module StackFacts.
Import GoErr Stack.

(** *** [StackName] *)

(** The three names joined with hyphens. *)
Definition joinedName (w : wkld) : string :=
  app w +:+ "-" +:+ env w +:+ "-" +:+ name w.

Lemma substring_prefix_length m s :
  String.length (String.substring 0 m s) = Nat.min m (String.length s).
Proof.
  revert m. induction s as [| c s IH]; intros [| m]; simpl; try reflexivity.
  now rewrite IH.
Qed.

Lemma substring_prefix_all m s :
  String.length s <= m -> String.substring 0 m s = s.
Proof.
  revert m. induction s as [| c s IH]; intros [| m] Hlen; simpl in *;
    try reflexivity; try lia.
  f_equal. apply IH. lia.
Qed.

Lemma StackName_prefix w :
  StackName w = String.substring 0 maxStackNameLen (joinedName w).
Proof.
  unfold StackName. fold (joinedName w).
  destruct (Nat.ltb_spec maxStackNameLen (String.length (joinedName w))) as [H | H].
  - reflexivity.
  - symmetry. now apply substring_prefix_all.
Qed.

(** The two cases of [TestLoadBalancedWebService_StackName]. *)
Definition testWkld (svc : string) : wkld :=
  {| name := svc; env := "test"; app := "phonetool";
     addons := {| addons_Template := Ok ""; addons_Parameters := Ok "" |} |}.

Definition longServiceName : string :=
  "whatisthishorriblylongservicenamethatcantfitintocloudformationwhatarewesupposedtodoaboutthisaaaaaaaaaaaaaaaaaaaaaaaaaaaaaaaaaaaa".

Example StackName_valid_stack_name :
  StackName (testWkld "frontend") = "phonetool-test-frontend".
Proof. reflexivity. Qed.

Example StackName_longer_than_128_characters :
  StackName (testWkld longServiceName)
  = "phonetool-test-whatisthishorriblylongservicenamethatcantfitintocloudformationwhatarewesupposedtodoaboutthisaaaaaaaaaaaaaaaaaaaaa".
Proof. vm_compute. reflexivity. Qed.

(** C7, as stated, fails on the second test case: the stack name of a service
    whose joined name has 143 bytes is not the joined name. *)
Lemma StackName_not_always_joined :
  StackName (testWkld longServiceName)
  <> "phonetool" +:+ "-" +:+ "test" +:+ "-" +:+ longServiceName.
Proof. vm_compute. discriminate. Qed.

(** C7, amended. [StackName] is a function of the application, environment
    and workload names alone: it is the first 128 bytes of app-env-service, so
    it has at most 128 bytes, it is app-env-service itself exactly when that
    string has at most 128 bytes, and two workloads with the same three names
    have the same stack name. *)
Theorem StackName_joined_up_to_128_bytes (w : wkld) :
  StackName w = String.substring 0 128 (app w +:+ "-" +:+ env w +:+ "-" +:+ name w)
  /\ String.length (StackName w) <= 128
  /\ (StackName w = app w +:+ "-" +:+ env w +:+ "-" +:+ name w
      <-> String.length (app w +:+ "-" +:+ env w +:+ "-" +:+ name w) <= 128)
  /\ (forall w' : wkld,
        app w' = app w -> env w' = env w -> name w' = name w ->
        StackName w' = StackName w).
Proof.
  fold (joinedName w). change 128 with maxStackNameLen.
  split; [apply StackName_prefix |]. split; [| split].
  - rewrite StackName_prefix, substring_prefix_length. lia.
  - rewrite StackName_prefix. split.
    + intros Heq.
      assert (Hlen := substring_prefix_length maxStackNameLen (joinedName w)).
      rewrite Heq in Hlen. lia.
    + apply substring_prefix_all.
  - intros w' Happ Henv Hname. unfold StackName. now rewrite Happ, Henv, Hname.
Qed.

(** *** [Template] and the addons of the workload *)

Section TemplateFacts.

Context {ManifestOpts : Type}.
Variables lbWebSvcRulePriorityGeneratorPath desiredCountGeneratorPath
  envControllerPath : string.
Variable addonsOutputsOf : string -> WorkloadNestedStackOpts.
Variable parametersFirst : bool.

Local Abbreviation Template :=
  (@Template ManifestOpts lbWebSvcRulePriorityGeneratorPath
     desiredCountGeneratorPath envControllerPath addonsOutputsOf parametersFirst).
Local Abbreviation addonsOf := (addonsOf addonsOutputsOf parametersFirst).






End TemplateFacts.

(** *** The cases of [TestLoadBalancedWebService_Template] *)

(** The options of the test manifest that come from the manifest alone. *)
Record testManifestOpts : Type :=
  { WorkloadType : string;
    HealthCheckPath : string;
    GracePeriod : Z;
    DeregistrationDelay : Z;
    EntryPoint : list string;
    Command : list string }.

#[global] Instance testManifestOpts_eq_dec : EqDecision testManifestOpts.
Proof. solve_decision. Defined.

#[global] Instance WorkloadOpts_eq_dec : EqDecision (@WorkloadOpts testManifestOpts).
Proof. solve_decision. Defined.

Definition testLBWebServiceManifest : testManifestOpts :=
  {| WorkloadType := "Load Balanced Web Service";
     HealthCheckPath := "/";
     GracePeriod := 60;
     DeregistrationDelay := 60;
     EntryPoint := [ "/bin/echo"; "hello" ];
     Command := [ "world" ] |}.

Definition someError : error := New "some error".

(** The addons templates of the tests, by their [Outputs]. *)
Definition policyAddonsTemplate : string :=
  "Outputs: AdditionalResourcesPolicyArn".
Definition fullAddonsTemplate : string :=
  "Outputs: AdditionalResourcesPolicyArn MySecretArn Hello".

Definition testAddonsOutputsOf (stack : string) : WorkloadNestedStackOpts :=
  if decide (stack = fullAddonsTemplate) then
    {| ns_StackName := "AddonsStack";
       VariableOutputs := [ "Hello" ];
       SecretOutputs := [ "MySecretArn" ];
       PolicyOutputs := [ "AdditionalResourcesPolicyArn" ] |}
  else if decide (stack = policyAddonsTemplate) then
    {| ns_StackName := "AddonsStack";
       VariableOutputs := [];
       SecretOutputs := [];
       PolicyOutputs := [ "AdditionalResourcesPolicyArn" ] |}
  else
    {| ns_StackName := "AddonsStack";
       VariableOutputs := []; SecretOutputs := []; PolicyOutputs := [] |}.

(** A mocked parser: the answers to the three [Read]s and the [WorkloadOpts]
    it expects with its answer to them ([None]: any options, answered with
    "some error"). *)
Definition mockParser (rule count ctl : result string)
    (expected : option (@WorkloadOpts testManifestOpts))
  : @loadBalancedWebSvcReadParser testManifestOpts :=
  {| Read := fun path =>
       if decide (path = "rule-priority-generator") then rule
       else if decide (path = "desired-count-generator") then count
       else if decide (path = "env-controller") then ctl
       else Err (New "unexpected call");
     ParseLoadBalancedWebService := fun opts =>
       match expected with
       | None => Err someError
       | Some want =>
           if decide (opts = want) then Ok "template"
           else Err (New "unexpected call")
       end |}.

Definition testService (a : templater)
    (p : @loadBalancedWebSvcReadParser testManifestOpts)
  : @LoadBalancedWebService testManifestOpts :=
  {| lb_wkld := {| name := "frontend"; env := "test"; app := "phonetool";
                   addons := a |};
     taskDefOverrideFunc := fun origTemp => Ok origTemp;
     manifest := testLBWebServiceManifest;
     parser := p |}.

Definition runTemplate (parametersFirst : bool)
    (s : @LoadBalancedWebService testManifestOpts) : result string :=
  Template "rule-priority-generator" "desired-count-generator" "env-controller"
    testAddonsOutputsOf parametersFirst s.

(** What [require.EqualError] and [require.Equal] compare. *)
Definition shown (r : result string) : string + string :=
  match r with
  | Ok tpl => inl tpl
  | Err e => inr (Error e)
  end.

Definition noAddons : templater :=
  {| addons_Template := Err (Typed TErrAddonsNotFound "addons not found");
     addons_Parameters := Err (Typed TErrAddonsNotFound "addons not found") |}.

Definition expectedWithoutAddons : @WorkloadOpts testManifestOpts :=
  {| NestedStack := None;
     AddonsExtraParams := "";
     RulePriorityLambda := "lambda";
     DesiredCountLambda := "something";
     EnvControllerLambda := "something";
     FromManifest := testLBWebServiceManifest |}.

Definition expectedWithAddons : @WorkloadOpts testManifestOpts :=
  {| NestedStack :=
       Some {| ns_StackName := "AddonsStack";
               VariableOutputs := [ "Hello" ];
               SecretOutputs := [ "MySecretArn" ];
               PolicyOutputs := [ "AdditionalResourcesPolicyArn" ] |};
     AddonsExtraParams := "ServiceName: !GetAtt Service.Name";
     RulePriorityLambda := "lambda";
     DesiredCountLambda := "something";
     EnvControllerLambda := "something";
     FromManifest := testLBWebServiceManifest |}.

Example Template_unavailable_rule_priority_lambda b :
  shown (runTemplate b
           (testService noAddons
              (mockParser (Err someError) (Ok "x") (Ok "x") None)))
  = inr "read rule priority lambda: some error".
Proof. destruct b; reflexivity. Qed.

Example Template_unavailable_desired_count_lambda b :
  shown (runTemplate b
           (testService noAddons
              (mockParser (Ok "something") (Err someError) (Ok "x") None)))
  = inr "read desired count lambda: some error".
Proof. destruct b; reflexivity. Qed.

Example Template_unavailable_env_controller_lambda b :
  shown (runTemplate b
           (testService noAddons
              (mockParser (Ok "something") (Ok "something") (Err someError) None)))
  = inr "read env controller lambda: some error".
Proof. destruct b; reflexivity. Qed.

Example Template_unexpected_addons_template_error b :
  shown (runTemplate b
           (testService
              {| addons_Template := Err someError; addons_Parameters := Ok "" |}
              (mockParser (Ok "something") (Ok "something") (Ok "something") None)))
  = inr "generate addons template for frontend: some error".
Proof. destruct b; reflexivity. Qed.

Example Template_unexpected_addons_parameter_error b :
  shown (runTemplate b
           (testService
              {| addons_Template := Ok ""; addons_Parameters := Err someError |}
              (mockParser (Ok "something") (Ok "something") (Ok "something") None)))
  = inr "parse addons parameters for frontend: some error".
Proof. destruct b; vm_compute; reflexivity. Qed.

Example Template_failed_parsing_svc_template b :
  shown (runTemplate b
           (testService
              {| addons_Template := Ok policyAddonsTemplate;
                 addons_Parameters := Ok "" |}
              (mockParser (Ok "something") (Ok "something") (Ok "something") None)))
  = inr "some error".
Proof. destruct b; vm_compute; reflexivity. Qed.

Example Template_render_without_addons b :
  shown (runTemplate b
           (testService noAddons
              (mockParser (Ok "lambda") (Ok "something") (Ok "something")
                 (Some expectedWithoutAddons))))
  = inl "template".
Proof. destruct b; vm_compute; reflexivity. Qed.

Example Template_render_with_addons b :
  shown (runTemplate b
           (testService
              {| addons_Template := Ok fullAddonsTemplate;
                 addons_Parameters := Ok "ServiceName: !GetAtt Service.Name" |}
              (mockParser (Ok "lambda") (Ok "something") (Ok "something")
                 (Some expectedWithAddons))))
  = inl "template".
Proof. destruct b; vm_compute; reflexivity. Qed.

End StackFacts.

(** ** Commands of package [cli]: a receiver, its collaborators, and a trace *)

Module Cmd.
Import GoErr.

Section Monad.

(** The receiver struct of a command and the calls it makes. *)
Context {O E : Type}.

Record world : Type :=
  { opts : O; trace : list E }.

(** A method returns a value with a [nil] error, returns a non-nil error, or
    panics. *)
Inductive outcome (A : Type) : Type :=
| Ret (a : A)
| Fail (e : error)
| Panic (why : string).
#[global] Arguments Ret {A} a.
#[global] Arguments Fail {A} e.
#[global] Arguments Panic {A} why.

Definition M (A : Type) : Type := world -> outcome A * world.

Definition ret {A} (a : A) : M A := fun w => (Ret a, w).
Definition fail {A} (e : error) : M A := fun w => (Fail e, w).
Definition panic {A} (why : string) : M A := fun w => (Panic why, w).
Definition bind {A B} (m : M A) (k : A -> M B) : M B :=
  fun w =>
    match m w with
    | (Ret a, w') => k a w'
    | (Fail e, w') => (Fail e, w')
    | (Panic why, w') => (Panic why, w')
    end.

Definition emit (e : E) : M unit :=
  fun w => (Ret tt, {| opts := opts w; trace := trace w ++ [e] |}).
Definition self : M O := fun w => (Ret (opts w), w).
Definition assign (f : O -> O) : M unit :=
  fun w => (Ret tt, {| opts := f (opts w); trace := trace w |}).

(** A call on a collaborator: recorded, then its answer. *)
Definition call {A} (e : E) (answer : A) : M A :=
  bind (emit e) (fun _ => ret answer).

(** [v, err := f(); if err != nil { return wrap(err) }] *)
Definition orReturn {A} (r : result A) (wrap : error -> error) : M A :=
  match r with
  | Ok a => ret a
  | Err e => fail (wrap e)
  end.

(** [if err := f(); err != nil { return wrap(err) }] *)
Definition orFail (err : option error) (wrap : error -> error) : M unit :=
  match err with
  | None => ret tt
  | Some e => fail (wrap e)
  end.

(** [if err := o.m(); err != nil { return wrap(err) }] for a method of [o]. *)
Definition wrapping {A} (m : M A) (wrap : error -> error) : M A :=
  fun w =>
    match m w with
    | (Fail e, w') => (Fail (wrap e), w')
    | r => r
    end.

Definition addEvents (w : world) (evs : list E) : world :=
  {| opts := opts w; trace := trace w ++ evs |}.

End Monad.

#[global] Arguments world : clear implicits.
#[global] Arguments M : clear implicits.

End Cmd.

(** Equations of the command monad. *)
Module CmdFacts.
Import GoErr Cmd.

Section Equations.
Context {O E : Type}.
Implicit Types w : world O E.

Lemma cmd_bind_ret {A B} (a : A) (k : A -> M O E B) w : bind (ret a) k w = k a w.
Proof. reflexivity. Qed.

Lemma cmd_bind_fail {A B} e (k : A -> M O E B) w : bind (fail e) k w = (Fail e, w).
Proof. reflexivity. Qed.

Lemma cmd_bind_panic {A B} why (k : A -> M O E B) w :
  bind (panic why) k w = (Panic why, w).
Proof. reflexivity. Qed.

Lemma cmd_bind_self {B} (k : O -> M O E B) w : bind self k w = k (opts w) w.
Proof. reflexivity. Qed.

Lemma cmd_bind_emit {B} e (k : unit -> M O E B) w :
  bind (emit e) k w = k tt (addEvents w [e]).
Proof. reflexivity. Qed.

Lemma cmd_bind_call {A B} e (a : A) (k : A -> M O E B) w :
  bind (call e a) k w = k a (addEvents w [e]).
Proof. reflexivity. Qed.

Lemma cmd_bind_assign {B} f (k : unit -> M O E B) w :
  bind (assign f) k w = k tt {| opts := f (opts w); trace := trace w |}.
Proof. reflexivity. Qed.

Lemma cmd_bind_assoc {A B C} (m : M O E A) (k : A -> M O E B) (h : B -> M O E C) w :
  bind (bind m k) h w = bind m (fun a => bind (k a) h) w.
Proof. unfold bind. destruct (m w) as [[a | e | why] w']; reflexivity. Qed.

Lemma cmd_bind_run {A B} (m : M O E A) (k : A -> M O E B) w a w' :
  m w = (Ret a, w') -> bind m k w = k a w'.
Proof. intros H. unfold bind. now rewrite H. Qed.

Lemma cmd_bind_stop {A B} (m : M O E A) (k : A -> M O E B) w e w' :
  m w = (Fail e, w') -> bind m k w = (Fail e, w').
Proof. intros H. unfold bind. now rewrite H. Qed.

Lemma cmd_bind_run_or_stop {B} (m : M O E unit) (k : unit -> M O E B) w r w' :
  m w = (r, w') ->
  bind m k w =
    match r with
    | Ret a => k a w'
    | Fail e => (Fail e, w')
    | Panic why => (Panic why, w')
    end.
Proof. intros H. unfold bind. now rewrite H. Qed.

Lemma addEvents_addEvents w (evs evs' : list E) :
  addEvents (addEvents w evs) evs' = addEvents w (evs ++ evs').
Proof. unfold addEvents. simpl. now rewrite app_assoc. Qed.

Lemma addEvents_nil w : addEvents w [] = w.
Proof. destruct w. unfold addEvents. simpl. now rewrite app_nil_r. Qed.

End Equations.

Ltac cmd_step :=
  repeat first
    [ rewrite cmd_bind_assoc
    | rewrite cmd_bind_self
    | rewrite cmd_bind_call
    | rewrite cmd_bind_emit
    | rewrite cmd_bind_assign
    | rewrite cmd_bind_ret
    | rewrite cmd_bind_fail
    | rewrite cmd_bind_panic
    | rewrite addEvents_addEvents ].

End CmdFacts.

(** ** [internal/pkg/cli/job_init.go] *)

Module JobInit.
Import GoErr Cmd.

(** The named error types [job_init.go] tests for with [errors.As]. *)
Definition TErrFileNotExists : errType := TErrOther "workspace.ErrFileNotExists".
Definition TErrWorkspaceNotFound : errType := TErrOther "workspace.ErrWorkspaceNotFound".
Definition TErrNoSuchJob : errType := TErrOther "config.ErrNoSuchJob".
Definition TErrDockerDaemonNotResponsive : errType :=
  TErrOther "dockerengine.ErrDockerDaemonNotResponsive".

Definition nl : string := String (Ascii.ascii_of_nat 10) EmptyString.
Definition dq : string := String (Ascii.ascii_of_nat 34) EmptyString.

Section Command.

(** [manifest.ContainerHealthCheck] and the Dockerfile parser are passed
    through unchanged. *)
Context {HealthCheck Parser : Type}.

(** Names of the package and of its imports that are declared in other
    files: the validators, the flag names, the prompt texts, the job type, and
    the helpers that read a Dockerfile and the Docker platform. *)
Variable errNoAppInWorkspace : error.
Variables validateJobType validateJobName validateSchedule validateTimeout
  : string -> option error.
Variables dockerFileFlag imageFlag : string.
Variable ScheduledJobType : string.
Variable DockerfilePromptUseImage : string.
Variable defaultEnvironmentName : string.
(** [errors.Is(err, dockerengine.ErrDockerCommandNotFound)] *)
Variable isDockerCommandNotFound : error -> bool.
Variables fmtWkldInitNamePrompt fmtWkldInitNameHelpPrompt : string -> string -> string.
Variables wkldInitImagePrompt wkldInitImagePromptHelp : string.
Variables fmtWkldInitDockerfilePrompt fmtWkldInitDockerfilePathPrompt : string -> string.
Variables wkldInitDockerfileHelpPrompt wkldInitDockerfilePathHelpPrompt : string.
Variable jobInitScheduleHelp : string.
Variables HighlightUserInput HighlightResource HighlightCode Emphasize
  : string -> string.
(** The zero [manifest.ContainerHealthCheck] and [parseHealthCheck]. *)
Variable noHealthCheck : HealthCheck.
Variable parseHealthCheck : Parser -> HealthCheck * option error.

Definition jobInitSchedulePrompt : string :=
  "How would you like to " +:+ Emphasize "schedule" +:+ " this job?".

(** *** The interfaces held by [initJobOpts] *)

(** [afero.Fs], of which only the error of [Stat] is used. *)
Record fileSystem : Type :=
  { Stat : string -> option error }.
(** [store], of which only the error of [GetJob] is used. *)
Record store : Type :=
  { GetJob : string -> string -> option error }.
(** [initialize.JobProps] *)
Record JobProps : Type :=
  { jp_App : string;
    jp_Name : string;
    jp_Type : string;
    jp_DockerfilePath : string;
    jp_Image : string;
    jp_Platform : option string;
    jp_Schedule : string;
    jp_HealthCheck : HealthCheck;
    jp_Timeout : string;
    jp_Retries : Z }.
Record jobInitializer : Type :=
  { Job : JobProps -> result string }.
Record prompter : Type :=
  { Get : string -> string -> result string }.
Record initJobSelector : Type :=
  { Dockerfile : string -> string -> string -> string -> result string;
    Schedule : string -> string -> result string }.
Record dockerEngine : Type :=
  { CheckDockerEngineRunning : option error }.
(** A workload manifest answers [WorkloadType() (string, error)]. *)
Record workloadManifest : Type :=
  { WorkloadType : result string }.
Record manifestReader : Type :=
  { ReadWorkloadManifest : string -> result workloadManifest }.

(** [legitimizePlatform(engine, wkldType)] *)
Variable legitimizePlatform : dockerEngine -> string -> result string.

(** [initJobOpts], with [initJobVars] and the fields of [initWkldVars] it
    uses inlined. *)
Record initJobOpts : Type :=
  { appName : string;
    name : string;
    wkldType : string;
    dockerfilePath : string;
    image : string;
    timeout : string;
    retries : Z;
    schedule : string;
    fs : fileSystem;
    o_store : store;
    init : jobInitializer;
    prompt : prompter;
    sel : initJobSelector;
    o_dockerEngine : dockerEngine;
    mftReader : manifestReader;
    manifestPath : string;
    platform : option string;
    initParser : string -> Parser }.

Definition withVars (o : initJobOpts)
    (n t d i s m : string) (p : option string) : initJobOpts :=
  {| appName := appName o; name := n; wkldType := t; dockerfilePath := d;
     image := i; timeout := timeout o; retries := retries o; schedule := s;
     fs := fs o; o_store := o_store o; init := init o; prompt := prompt o;
     sel := sel o; o_dockerEngine := o_dockerEngine o; mftReader := mftReader o;
     manifestPath := m; platform := p; initParser := initParser o |}.

Definition set_name (n : string) (o : initJobOpts) : initJobOpts :=
  withVars o n (wkldType o) (dockerfilePath o) (image o) (schedule o)
    (manifestPath o) (platform o).
Definition set_wkldType (t : string) (o : initJobOpts) : initJobOpts :=
  withVars o (name o) t (dockerfilePath o) (image o) (schedule o)
    (manifestPath o) (platform o).
Definition set_dockerfilePath (d : string) (o : initJobOpts) : initJobOpts :=
  withVars o (name o) (wkldType o) d (image o) (schedule o)
    (manifestPath o) (platform o).
Definition set_image (i : string) (o : initJobOpts) : initJobOpts :=
  withVars o (name o) (wkldType o) (dockerfilePath o) i (schedule o)
    (manifestPath o) (platform o).
Definition set_schedule (s : string) (o : initJobOpts) : initJobOpts :=
  withVars o (name o) (wkldType o) (dockerfilePath o) (image o) s
    (manifestPath o) (platform o).
Definition set_manifestPath (m : string) (o : initJobOpts) : initJobOpts :=
  withVars o (name o) (wkldType o) (dockerfilePath o) (image o) (schedule o)
    m (platform o).
Definition set_platform (p : option string) (o : initJobOpts) : initJobOpts :=
  withVars o (name o) (wkldType o) (dockerfilePath o) (image o) (schedule o)
    (manifestPath o) p.

(** *** Effects *)

Inductive event : Type :=
| EvStat (path : string)
| EvGetJob (appN jobN : string)
| EvReadWorkloadManifest (jobN : string)
| EvPromptGet (message help finalMessage : string)
| EvCheckDockerEngineRunning
| EvSelDockerfile (selPrompt notFoundPrompt selHelp notFoundHelp : string)
| EvSelSchedule (schedulePrompt scheduleHelp : string)
| EvParseHealthCheck (path : string)
| EvLegitimizePlatform (wlType : string)
| EvInitJob (props : JobProps)
| EvLogInfo (msg : string)
| EvLogWarning (msg : string)
| EvLogError (msg : string)
| EvLogRecommendedActions (actions : list string).

Local Abbreviation M := (Cmd.M initJobOpts event).

Local Notation "'let*' x ':=' c 'in' k" := (bind c (fun x => k))
  (at level 10, x name, c at level 100, k at level 200).
Local Notation "c ;;; k" := (bind c (fun _ => k))
  (at level 100, k at level 200, right associativity).

Definition same (err : error) : error := err.

(** *** Methods of [initJobOpts] *)

(** The advice [validateDuplicateJob] logs for a job that exists. *)
Definition duplicateJobAdvice (jobN : string) : string :=
  "It seems like you are trying to init a job that already exists." +:+ nl
  +:+ "To recreate the job, please run:" +:+ nl
  +:+ "1. " +:+ HighlightCode ("copilot job delete --name " +:+ jobN)
  +:+ ". Note: The manifest file will not be deleted and will be used in Step 2."
  +:+ nl
  +:+ "If you'd prefer a new default manifest, please manually delete the existing one."
  +:+ nl
  +:+ "2. And then " +:+ HighlightCode ("copilot job init --name " +:+ jobN)
  +:+ nl.

(** [validateDuplicateJob] *)
Definition validateDuplicateJob : M unit :=
  let* o := self in
  let* err := call (EvGetJob (appName o) (name o))
                   (GetJob (o_store o) (appName o) (name o)) in
  match err with
  | None =>
      emit (EvLogError (duplicateJobAdvice (name o))) ;;;
      fail (New ("job " +:+ HighlightUserInput (name o) +:+ " already exists"))
  | Some err =>
      if negb (errorsAs TErrNoSuchJob err) then
        fail (Wrap "validate if job exists" err)
      else ret tt
  end.

(** [Validate] *)
Definition Validate : M unit :=
  let* o := self in
  if decide (appName o = "") then fail errNoAppInWorkspace
  else
    (if decide (wkldType o = "") then ret tt
     else orFail (validateJobType (wkldType o)) same) ;;;
    (if decide (name o = "") then ret tt
     else orFail (validateJobName (name o)) same ;;; validateDuplicateJob) ;;;
    if negb (bool_decide (dockerfilePath o = "")) && negb (bool_decide (image o = ""))
    then fail (New ("--" +:+ dockerFileFlag +:+ " and --" +:+ imageFlag
                    +:+ " cannot be specified together"))
    else
      (if decide (dockerfilePath o = "") then ret tt
       else
         let* err := call (EvStat (dockerfilePath o))
                          (Stat (fs o) (dockerfilePath o)) in
         orFail err same) ;;;
      (if decide (schedule o = "") then ret tt
       else orFail (validateSchedule (schedule o)) same) ;;;
      (if decide (timeout o = "") then ret tt
       else orFail (validateTimeout (timeout o)) same) ;;;
      if (retries o <? 0)%Z
      then fail (New "number of retries must be non-negative")
      else ret tt.

(** [askJobType] *)
Definition askJobType : M unit :=
  let* o := self in
  if decide (wkldType o = "") then
    (* short circuit since there's only one valid job type. *)
    assign (set_wkldType ScheduledJobType)
  else ret tt.

(** [askJobName] *)
Definition askJobName : M unit :=
  let* o := self in
  if decide (name o = "") then
    let message := fmtWkldInitNamePrompt (Emphasize "name") "job" in
    let help := fmtWkldInitNameHelpPrompt "job" (appName o) in
    let* r := call (EvPromptGet message help "Job name:")
                   (Get (prompt o) message help) in
    let* n := orReturn r (Wrap "get job name") in
    assign (set_name n) ;;;
    validateDuplicateJob
  else ret tt.

(** [askImage] *)
Definition askImage : M unit :=
  let* o := self in
  if decide (image o = "") then
    let* r := call (EvPromptGet wkldInitImagePrompt wkldInitImagePromptHelp "Image:")
                   (Get (prompt o) wkldInitImagePrompt wkldInitImagePromptHelp) in
    let* i := orReturn r (Wrap "get image location") in
    assign (set_image i)
  else ret tt.

(** [askDockerfile]; the answer says whether a Dockerfile or an image is in
    use. *)
Definition askDockerfile : M bool :=
  let* o := self in
  if negb (bool_decide (dockerfilePath o = "")) || negb (bool_decide (image o = ""))
  then ret true
  else
    let* err := call EvCheckDockerEngineRunning
                     (CheckDockerEngineRunning (o_dockerEngine o)) in
    match err with
    | Some err =>
        if isDockerCommandNotFound err then
          emit (EvLogInfo ("Docker command is not found; Copilot won't build from a Dockerfile."
                           +:+ nl)) ;;;
          ret false
        else if errorsAs TErrDockerDaemonNotResponsive err then
          emit (EvLogInfo ("Docker daemon is not responsive; Copilot won't build from a Dockerfile."
                           +:+ nl)) ;;;
          ret false
        else fail (Wrap "check if docker engine is running" err)
    | None =>
        let selPrompt := fmtWkldInitDockerfilePrompt (HighlightUserInput (name o)) in
        let notFoundPrompt :=
          fmtWkldInitDockerfilePathPrompt (HighlightUserInput (name o)) in
        let* r := call (EvSelDockerfile selPrompt notFoundPrompt
                          wkldInitDockerfileHelpPrompt wkldInitDockerfilePathHelpPrompt)
                       (Dockerfile (sel o) selPrompt notFoundPrompt
                          wkldInitDockerfileHelpPrompt wkldInitDockerfilePathHelpPrompt) in
        let* df := orReturn r (Wrap "select Dockerfile") in
        if decide (df = DockerfilePromptUseImage) then ret false
        else assign (set_dockerfilePath df) ;;; ret true
    end.

(** [askSchedule] *)
Definition askSchedule : M unit :=
  let* o := self in
  if decide (schedule o = "") then
    let* r := call (EvSelSchedule jobInitSchedulePrompt jobInitScheduleHelp)
                   (Schedule (sel o) jobInitSchedulePrompt jobInitScheduleHelp) in
    let* s := orReturn r (Wrap "get schedule") in
    assign (set_schedule s)
  else ret tt.

(** [Ask] *)
Definition Ask : M unit :=
  askJobName ;;;
  let* o := self in
  let* r := call (EvReadWorkloadManifest (name o))
                 (ReadWorkloadManifest (mftReader o) (name o)) in
  match r with
  | Ok localMft =>
      let* jobType :=
        orReturn (WorkloadType localMft)
          (Wrap ("read " +:+ dq +:+ "type" +:+ dq +:+ " field for job " +:+ name o
                 +:+ " from local manifest")) in
      assign (set_wkldType jobType) ;;;
      emit (EvLogInfo ("Manifest file for job " +:+ name o
                       +:+ " already exists. Skipping configuration." +:+ nl)) ;;;
      ret tt
  | Err err =>
      if negb (errorsAs TErrFileNotExists err)
         && negb (errorsAs TErrWorkspaceNotFound err)
      then fail (Wrap ("read manifest file for job " +:+ name o) err)
      else
        askJobType ;;;
        let* dfSelected := askDockerfile in
        (if negb dfSelected then askImage else ret tt) ;;;
        askSchedule ;;;
        ret tt
  end.

(** [Execute] *)
Definition Execute : M unit :=
  let* o := self in
  (* Check for a valid healthcheck and add it to the opts. *)
  let* hc :=
    if decide (dockerfilePath o = "") then ret noHealthCheck
    else
      let* parsed := call (EvParseHealthCheck (dockerfilePath o))
                          (parseHealthCheck (initParser o (dockerfilePath o))) in
      match snd parsed with
      | Some err =>
          emit (EvLogWarning
                  ("Cannot parse the HEALTHCHECK instruction from the Dockerfile: "
                   +:+ Error err +:+ nl)) ;;;
          ret (fst parsed)
      | None => ret (fst parsed)
      end in
  (if decide (image o = "") then
     let* r := call (EvLegitimizePlatform (wkldType o))
                    (legitimizePlatform (o_dockerEngine o) (wkldType o)) in
     let* p := orReturn r same in
     if decide (p = "") then ret tt else assign (set_platform (Some p))
   else ret tt) ;;;
  let* o1 := self in
  let props :=
    {| jp_App := appName o1;
       jp_Name := name o1;
       jp_Type := wkldType o1;
       jp_DockerfilePath := dockerfilePath o1;
       jp_Image := image o1;
       jp_Platform := platform o1;
       jp_Schedule := schedule o1;
       jp_HealthCheck := hc;
       jp_Timeout := timeout o1;
       jp_Retries := retries o1 |} in
  let* r := call (EvInitJob props) (Job (init o1) props) in
  let* path := orReturn r same in
  assign (set_manifestPath path).

(** [RecommendActions] *)
Definition RecommendActions : M unit :=
  let* o := self in
  emit (EvLogRecommendedActions
          [ "Update your manifest " +:+ HighlightResource (manifestPath o)
              +:+ " to change the defaults.";
            "Run "
              +:+ HighlightCode ("copilot job deploy --name " +:+ name o +:+ " --env "
                                 +:+ defaultEnvironmentName)
              +:+ " to deploy your job to a " +:+ defaultEnvironmentName
              +:+ " environment." ]).


(** *** [validateDuplicateJob] and [Validate] *)

Import CmdFacts.

Implicit Types w : world initJobOpts event.

(** [validateDuplicateJob] by the answer of the store. *)
Lemma validateDuplicateJob_run w :
  let o := opts w in
  validateDuplicateJob w =
    match GetJob (o_store o) (appName o) (name o) with
    | None =>
        (Fail (New ("job " +:+ HighlightUserInput (name o) +:+ " already exists")),
         addEvents w [ EvGetJob (appName o) (name o);
                       EvLogError (duplicateJobAdvice (name o)) ])
    | Some err =>
        if errorsAs TErrNoSuchJob err
        then (Ret tt, addEvents w [ EvGetJob (appName o) (name o) ])
        else (Fail (Wrap "validate if job exists" err),
              addEvents w [ EvGetJob (appName o) (name o) ])
    end.
Proof.
  unfold validateDuplicateJob. cmd_step. simpl.
  destruct (GetJob (o_store (opts w)) (appName (opts w)) (name (opts w))) as [err |].
  - destruct (errorsAs TErrNoSuchJob err); reflexivity.
  - cmd_step. reflexivity.
Qed.

Lemma validateDuplicateJob_keeps_opts w : opts (validateDuplicateJob w).2 = opts w.
Proof.
  unfold validateDuplicateJob. cmd_step. simpl.
  destruct (GetJob (o_store (opts w)) (appName (opts w)) (name (opts w))) as [err |].
  - destruct (errorsAs TErrNoSuchJob err); reflexivity.
  - cmd_step. reflexivity.
Qed.

(** A job is refused exactly when the store knows it or cannot say:
    [validateDuplicateJob] returns [nil] if and only if [GetJob] fails with an
    error in whose chain [errors.As] finds a [*config.ErrNoSuchJob]; a job that
    is found is refused as "job <name> already exists", and any other error of
    the store is returned as "validate if job exists: ...". *)
Theorem validateDuplicateJob_accepts_only_unknown_jobs w :
  let o := opts w in
  ((validateDuplicateJob w).1 = Ret tt
   <-> exists err, GetJob (o_store o) (appName o) (name o) = Some err
                   /\ errorsAs TErrNoSuchJob err = true)
  /\ (GetJob (o_store o) (appName o) (name o) = None ->
      (validateDuplicateJob w).1
      = Fail (New ("job " +:+ HighlightUserInput (name o) +:+ " already exists")))
  /\ (forall err,
        GetJob (o_store o) (appName o) (name o) = Some err ->
        errorsAs TErrNoSuchJob err = false ->
        (validateDuplicateJob w).1 = Fail (Wrap "validate if job exists" err)).
Proof.
  intros o. subst o. rewrite validateDuplicateJob_run. simpl.
  destruct (GetJob (o_store (opts w)) (appName (opts w)) (name (opts w))) as [err |].
  - destruct (errorsAs TErrNoSuchJob err) eqn:Has; simpl.
    + split; [| split].
      * split; [eauto | reflexivity].
      * discriminate.
      * intros err' [= <-]. congruence.
    + split; [| split].
      * split; [discriminate | intros [err' [[= <-] H]]; congruence].
      * discriminate.
      * now intros err' [= <-] _.
  - split; [| split].
    + split; [discriminate | intros [err' [H _]]; discriminate].
    + reflexivity.
    + discriminate.
Qed.

(** What [Validate] checks, as a condition on the flags and on what the store
    and the file system answer. *)
Definition validFlags (o : initJobOpts) : Prop :=
  appName o <> ""
  /\ (wkldType o <> "" -> validateJobType (wkldType o) = None)
  /\ (name o <> "" ->
      validateJobName (name o) = None
      /\ exists err, GetJob (o_store o) (appName o) (name o) = Some err
                     /\ errorsAs TErrNoSuchJob err = true)
  /\ (dockerfilePath o = "" \/ image o = "")
  /\ (dockerfilePath o <> "" -> Stat (fs o) (dockerfilePath o) = None)
  /\ (schedule o <> "" -> validateSchedule (schedule o) = None)
  /\ (timeout o <> "" -> validateTimeout (timeout o) = None)
  /\ (0 <= retries o)%Z.

Lemma bind_validateDuplicateJob {B} (k : unit -> Cmd.M initJobOpts event B) w :
  let o := opts w in
  bind validateDuplicateJob k w =
    match GetJob (o_store o) (appName o) (name o) with
    | None =>
        (Fail (New ("job " +:+ HighlightUserInput (name o) +:+ " already exists")),
         addEvents w [ EvGetJob (appName o) (name o);
                       EvLogError (duplicateJobAdvice (name o)) ])
    | Some err =>
        if errorsAs TErrNoSuchJob err
        then k tt (addEvents w [ EvGetJob (appName o) (name o) ])
        else (Fail (Wrap "validate if job exists" err),
              addEvents w [ EvGetJob (appName o) (name o) ])
    end.
Proof.
  intros o. subst o. unfold bind at 1. rewrite validateDuplicateJob_run. simpl.
  destruct (GetJob (o_store (opts w)) (appName (opts w)) (name (opts w))) as [err |];
    [destruct (errorsAs TErrNoSuchJob err) |]; reflexivity.
Qed.

(** One step of a run of checks: the next test of a flag, validator or
    collaborator is split into its cases. *)
Ltac next_check :=
  repeat (progress (simpl; cmd_step));
  match goal with
  | |- context [ bind (if decide ?P then _ else _) _ _ ] => destruct (decide P)
  | |- context [ bind (orFail ?v _) _ _ ] => destruct v eqn:?
  | |- context [ bind validateDuplicateJob _ _ ] =>
      rewrite bind_validateDuplicateJob; simpl
  | |- context [ match GetJob ?s ?a ?n with _ => _ end ] =>
      destruct (GetJob s a n) eqn:?
  | |- context [ if errorsAs ?t ?e then _ else _ ] => destruct (errorsAs t e) eqn:?
  | |- context [ (if decide ?P then _ else _) _ ] => destruct (decide P)
  | |- context [ orFail ?v _ _ ] => destruct v eqn:?
  | |- context [ bool_decide ?P ] => destruct (bool_decide_reflect P)
  | |- context [ (?a <? ?b)%Z ] => destruct (Z.ltb_spec a b)
  end.

(** [Validate] returns [nil] exactly on valid flags: an application name, a
    job type, name, schedule and timeout that pass their validators when given,
    a name the store does not know, at most one of Dockerfile and image, a
    Dockerfile that exists, and a number of retries that is not negative. *)
Theorem Validate_accepts_exactly_valid_flags w :
  (Validate w).1 = Ret tt <-> validFlags (opts w).
Proof.
  destruct w as [o tr]. unfold Validate, validFlags.
  repeat next_check; repeat (progress (simpl; cmd_step)).
  all: try (split;
            [ discriminate
            | intros (Happ & Htype & Hname & Hboth & Hstat & Hsched & Htime & Hretr);
              first [ contradiction | lia | intuition congruence
                    | destruct Hname as [? [? [? ?]]]; [assumption | congruence] ] ]).
  all: split; [ intros _ | reflexivity ].
  all: repeat split; try (intros; congruence); try lia; eauto.
Qed.

(** *** [Ask] *)

Lemma askJobName_given w : name (opts w) <> "" -> askJobName w = (Ret tt, w).
Proof.
  intros Hname. unfold askJobName. cmd_step.
  destruct (decide (name (opts w) = "")); [contradiction | reflexivity].
Qed.

(** When the workspace already has a manifest for the job, [Ask] takes the
    job type from it, overwriting the one given by flag, says so, and asks
    nothing: no prompt, no selector, no Docker check. *)
Theorem Ask_skips_configuration_for_existing_manifest w localMft jobType :
  name (opts w) <> "" ->
  ReadWorkloadManifest (mftReader (opts w)) (name (opts w)) = Ok localMft ->
  WorkloadType localMft = Ok jobType ->
  let o := opts w in
  Ask w =
    (Ret tt,
     {| opts := set_wkldType jobType o;
        trace := trace w
          ++ [ EvReadWorkloadManifest (name o);
               EvLogInfo ("Manifest file for job " +:+ name o
                          +:+ " already exists. Skipping configuration." +:+ nl) ] |}).
Proof.
  intros Hname Hread Htype o. subst o. destruct w as [o tr]. simpl in *.
  unfold Ask.
  rewrite cmd_bind_run with (1 := askJobName_given {| opts := o; trace := tr |} Hname).
  cmd_step. simpl. rewrite Hread. simpl. rewrite Htype. simpl. cmd_step.
  unfold addEvents. simpl. rewrite <- ?app_assoc. reflexivity.
Qed.

(** How [Ask] comes to the name of the job: it is given, or [askJobName]
    prompts for it and the store does not know a job of that name. The
    receiver and the calls made are those of [askJobName]. *)
Inductive nameSettled w : initJobOpts -> list event -> Prop :=
| NameGiven :
    name (opts w) <> "" ->
    nameSettled w (opts w) []
| NamePrompted n err :
    name (opts w) = "" ->
    Get (prompt (opts w))
      (fmtWkldInitNamePrompt (Emphasize "name") "job")
      (fmtWkldInitNameHelpPrompt "job" (appName (opts w))) = Ok n ->
    GetJob (o_store (opts w)) (appName (opts w)) n = Some err ->
    errorsAs TErrNoSuchJob err = true ->
    nameSettled w (set_name n (opts w))
      [ EvPromptGet (fmtWkldInitNamePrompt (Emphasize "name") "job")
          (fmtWkldInitNameHelpPrompt "job" (appName (opts w))) "Job name:";
        EvGetJob (appName (opts w)) n ].

Lemma askJobName_settled w o1 evs :
  nameSettled w o1 evs ->
  askJobName w = (Ret tt, {| opts := o1; trace := trace w ++ evs |}).
Proof.
  intros [Hname | n err Hname Hget Hjob Has]; destruct w as [o tr]; simpl in *.
  - rewrite app_nil_r. now apply (askJobName_given {| opts := o; trace := tr |}).
  - unfold askJobName. cmd_step. simpl.
    destruct (decide (name o = "")); [| contradiction].
    cmd_step. simpl. rewrite Hget. simpl. cmd_step.
    rewrite validateDuplicateJob_run. simpl. rewrite Hjob, Has.
    unfold addEvents. simpl. now rewrite <- app_assoc.
Qed.

(** Only the name differs once it is settled. *)
Lemma nameSettled_keeps w o1 evs :
  nameSettled w o1 evs ->
  wkldType o1 = wkldType (opts w) /\ dockerfilePath o1 = dockerfilePath (opts w)
  /\ image o1 = image (opts w) /\ schedule o1 = schedule (opts w)
  /\ prompt o1 = prompt (opts w) /\ sel o1 = sel (opts w)
  /\ o_dockerEngine o1 = o_dockerEngine (opts w)
  /\ mftReader o1 = mftReader (opts w).
Proof. intros [|]; now simpl. Qed.

(** An error of the manifest reader other than a missing file or a missing
    workspace stops [Ask] at the read: with the name given the read is the
    only call, and with the name prompted for, nothing follows the read; no
    field but a prompted name is assigned. *)
Theorem Ask_stops_on_unreadable_manifest w o1 evs err :
  nameSettled w o1 evs ->
  ReadWorkloadManifest (mftReader (opts w)) (name o1) = Err err ->
  errorsAs TErrFileNotExists err = false ->
  errorsAs TErrWorkspaceNotFound err = false ->
  Ask w =
    (Fail (Wrap ("read manifest file for job " +:+ name o1) err),
     {| opts := o1;
        trace := trace w ++ evs ++ [ EvReadWorkloadManifest (name o1) ] |}).
Proof.
  intros Hset Hread H1 H2.
  destruct (nameSettled_keeps w o1 evs Hset) as (_ & _ & _ & _ & _ & _ & _ & Kmft).
  unfold Ask. rewrite cmd_bind_run with (1 := askJobName_settled w o1 evs Hset).
  cmd_step. simpl. rewrite Kmft, Hread, H1, H2. simpl.
  unfold addEvents. simpl. now rewrite <- app_assoc.
Qed.

(** The job type after [askJobType]. *)
Definition typeOrScheduledJob (o : initJobOpts) : initJobOpts :=
  if decide (wkldType o = "") then set_wkldType ScheduledJobType o else o.

(** What [askDockerfile] logs when Docker cannot be used. *)
Definition dockerUnavailableNote (derr : error) : string :=
  if isDockerCommandNotFound derr
  then "Docker command is not found; Copilot won't build from a Dockerfile." +:+ nl
  else "Docker daemon is not responsive; Copilot won't build from a Dockerfile." +:+ nl.

Lemma askJobType_run w :
  askJobType w = (Ret tt, {| opts := typeOrScheduledJob (opts w); trace := trace w |}).
Proof.
  destruct w as [o tr]. unfold askJobType, typeOrScheduledJob. cmd_step. simpl.
  destruct (decide (wkldType o = "")); reflexivity.
Qed.

Lemma typeOrScheduledJob_keeps o :
  let o' := typeOrScheduledJob o in
  name o' = name o /\ dockerfilePath o' = dockerfilePath o /\ image o' = image o
  /\ schedule o' = schedule o /\ prompt o' = prompt o /\ sel o' = sel o
  /\ o_dockerEngine o' = o_dockerEngine o.
Proof. unfold typeOrScheduledJob. destruct (decide (wkldType o = "")); now simpl. Qed.

Lemma askDockerfile_unavailable w derr :
  dockerfilePath (opts w) = "" ->
  image (opts w) = "" ->
  CheckDockerEngineRunning (o_dockerEngine (opts w)) = Some derr ->
  isDockerCommandNotFound derr || errorsAs TErrDockerDaemonNotResponsive derr = true ->
  askDockerfile w =
    (Ret false,
     addEvents w [ EvCheckDockerEngineRunning; EvLogInfo (dockerUnavailableNote derr) ]).
Proof.
  intros Hdf Himg Hdocker Hunavailable. destruct w as [o tr]. simpl in *.
  unfold askDockerfile, dockerUnavailableNote. cmd_step. simpl.
  rewrite Hdf, Himg. simpl. cmd_step. simpl. rewrite Hdocker.
  destruct (isDockerCommandNotFound derr); simpl in *.
  - cmd_step. reflexivity.
  - rewrite Hunavailable. cmd_step. reflexivity.
Qed.

Lemma askImage_asks w img :
  image (opts w) = "" ->
  Get (prompt (opts w)) wkldInitImagePrompt wkldInitImagePromptHelp = Ok img ->
  askImage w =
    (Ret tt,
     {| opts := set_image img (opts w);
        trace := trace w
          ++ [ EvPromptGet wkldInitImagePrompt wkldInitImagePromptHelp "Image:" ] |}).
Proof.
  intros Himg Hget. destruct w as [o tr]. simpl in *.
  unfold askImage. cmd_step. simpl. rewrite Himg. simpl. cmd_step. simpl.
  rewrite Hget. simpl. cmd_step. reflexivity.
Qed.

Lemma askSchedule_given w : schedule (opts w) <> "" -> askSchedule w = (Ret tt, w).
Proof.
  intros Hsched. unfold askSchedule. cmd_step.
  destruct (decide (schedule (opts w) = "")); [contradiction | reflexivity].
Qed.

(** Docker being unavailable is not an error of [Ask]: when there is no
    manifest yet, neither a Dockerfile nor an image is given, and the Docker
    command is not found or its daemon does not respond, [Ask] notes it, does
    not call the Dockerfile selector and prompts for an image. From there it
    fails only with the error of the image prompt or, when no schedule is
    given, of the schedule selector; otherwise it returns [nil] with the image
    assigned, an empty job type set to the scheduled job, and a missing
    schedule set to the selected one. *)
Theorem Ask_falls_back_to_image_without_docker w o1 evs err derr :
  nameSettled w o1 evs ->
  ReadWorkloadManifest (mftReader (opts w)) (name o1) = Err err ->
  errorsAs TErrFileNotExists err || errorsAs TErrWorkspaceNotFound err = true ->
  dockerfilePath (opts w) = "" ->
  image (opts w) = "" ->
  CheckDockerEngineRunning (o_dockerEngine (opts w)) = Some derr ->
  isDockerCommandNotFound derr || errorsAs TErrDockerDaemonNotResponsive derr = true ->
  let o := opts w in
  let o2 := typeOrScheduledJob o1 in
  let asked :=
    trace w ++ evs
      ++ [ EvReadWorkloadManifest (name o1);
           EvCheckDockerEngineRunning;
           EvLogInfo (dockerUnavailableNote derr);
           EvPromptGet wkldInitImagePrompt wkldInitImagePromptHelp "Image:" ] in
  Ask w =
    match Get (prompt o) wkldInitImagePrompt wkldInitImagePromptHelp with
    | Err e =>
        (Fail (Wrap "get image location" e), {| opts := o2; trace := asked |})
    | Ok img =>
        if decide (schedule o = "") then
          match Schedule (sel o) jobInitSchedulePrompt jobInitScheduleHelp with
          | Err e =>
              (Fail (Wrap "get schedule" e),
               {| opts := set_image img o2;
                  trace := asked
                    ++ [ EvSelSchedule jobInitSchedulePrompt jobInitScheduleHelp ] |})
          | Ok sched =>
              (Ret tt,
               {| opts := set_schedule sched (set_image img o2);
                  trace := asked
                    ++ [ EvSelSchedule jobInitSchedulePrompt jobInitScheduleHelp ] |})
          end
        else (Ret tt, {| opts := set_image img o2; trace := asked |})
    end.
Proof.
  intros Hset Hread Hmissing Hdf Himg Hdocker Hunavailable o o2 asked.
  subst o o2 asked.
  destruct (nameSettled_keeps w o1 evs Hset)
    as (_ & Sdf & Simg & Ssched & Sprompt & Ssel & Sdocker & Smft).
  destruct (typeOrScheduledJob_keeps o1)
    as (Kname & Kdf & Kimg & Ksched & Kprompt & Ksel & Kdocker).
  unfold Ask. rewrite cmd_bind_run with (1 := askJobName_settled w o1 evs Hset).
  cmd_step. simpl. rewrite Smft, Hread.
  replace (negb (errorsAs TErrFileNotExists err)
           && negb (errorsAs TErrWorkspaceNotFound err)) with false
    by (destruct (errorsAs TErrFileNotExists err),
                 (errorsAs TErrWorkspaceNotFound err); simpl in *; congruence).
  cmd_step. rewrite cmd_bind_run with (1 := askJobType_run _). simpl.
  erewrite cmd_bind_run
    by (apply askDockerfile_unavailable with (derr := derr); simpl; congruence).
  simpl. cmd_step.
  unfold askImage. cmd_step. simpl.
  destruct (decide (image (typeOrScheduledJob o1) = "")) as [_ | Hne];
    [| congruence].
  cmd_step. simpl. rewrite Kprompt, Sprompt.
  destruct (Get (prompt (opts w)) wkldInitImagePrompt wkldInitImagePromptHelp)
    as [img | e]; simpl; cmd_step.
  - unfold askSchedule. cmd_step. simpl. rewrite Ksched, Ssched.
    destruct (decide (schedule (opts w) = "")).
    + cmd_step. simpl. rewrite Ksel, Ssel.
      destruct (Schedule (sel (opts w)) jobInitSchedulePrompt jobInitScheduleHelp);
        simpl; cmd_step; unfold addEvents; simpl;
        rewrite <- ?app_assoc; reflexivity.
    + cmd_step. unfold addEvents. simpl. rewrite <- ?app_assoc. reflexivity.
  - unfold addEvents. simpl. rewrite <- ?app_assoc. reflexivity.
Qed.

(** *** What [Ask] leaves as it was given *)

(** [o'] has the name, Dockerfile, image and schedule of [o] where [o] has
    them, and has both a Dockerfile and an image only if [o] has both. *)
Definition keepsGiven (o o' : initJobOpts) : Prop :=
  (name o <> "" -> name o' = name o)
  /\ (dockerfilePath o <> "" -> dockerfilePath o' = dockerfilePath o)
  /\ (image o <> "" -> image o' = image o)
  /\ (schedule o <> "" -> schedule o' = schedule o)
  /\ (dockerfilePath o = "" \/ image o = "" ->
      dockerfilePath o' = "" \/ image o' = "").

Lemma keepsGiven_refl o : keepsGiven o o.
Proof. unfold keepsGiven. repeat split; auto. Qed.

Lemma keepsGiven_trans o1 o2 o3 :
  keepsGiven o1 o2 -> keepsGiven o2 o3 -> keepsGiven o1 o3.
Proof.
  unfold keepsGiven.
  intros (N1 & D1 & I1 & S1 & E1) (N2 & D2 & I2 & S2 & E2).
  repeat split; intros H.
  - rewrite <- (N1 H). apply N2. now rewrite (N1 H).
  - rewrite <- (D1 H). apply D2. now rewrite (D1 H).
  - rewrite <- (I1 H). apply I2. now rewrite (I1 H).
  - rewrite <- (S1 H). apply S2. now rewrite (S1 H).
  - apply E2, E1, H.
Qed.

Lemma keepsGiven_eq o o' : o' = o -> keepsGiven o o'.
Proof. intros ->. apply keepsGiven_refl. Qed.

(** [m] keeps what was given, whatever the state it starts from. *)
Definition keeps {A} (m : Cmd.M initJobOpts event A) : Prop :=
  forall w, keepsGiven (opts w) (opts (m w).2).

Lemma keepsGiven_bind {A B} (m : Cmd.M initJobOpts event A)
    (k : A -> Cmd.M initJobOpts event B) w :
  keepsGiven (opts w) (opts (m w).2) ->
  (forall a, keeps (k a)) ->
  keepsGiven (opts w) (opts (bind m k w).2).
Proof.
  intros Hm Hk. unfold bind. destruct (m w) as [[a | e | why] w']; simpl in *;
    [ | exact Hm | exact Hm ].
  eapply keepsGiven_trans; [exact Hm | apply Hk].
Qed.

Lemma keeps_ret {A} (a : A) : keeps (ret a).
Proof. intros w. apply keepsGiven_refl. Qed.

Lemma askJobName_keeps : keeps askJobName.
Proof.
  intros [o tr]. unfold askJobName. cmd_step. simpl.
  destruct (decide (name o = "")) as [Hname |]; [| apply keepsGiven_refl].
  cmd_step. simpl.
  destruct (Get (prompt o) _ _) as [n | err]; simpl; cmd_step;
    [| apply keepsGiven_refl].
  rewrite validateDuplicateJob_keeps_opts. unfold keepsGiven. simpl.
  repeat split; auto. intros H. contradiction.
Qed.

Lemma askJobType_keeps : keeps askJobType.
Proof.
  intros w. rewrite askJobType_run. simpl.
  destruct (typeOrScheduledJob_keeps (opts w)) as (Kname & Kdf & Kimg & Ksched & _).
  unfold keepsGiven. rewrite Kname, Kdf, Kimg, Ksched. repeat split; auto.
Qed.

(** [askDockerfile] answers [false] only when neither a Dockerfile nor an
    image is given, and then assigns nothing. *)
Lemma askDockerfile_keeps w :
  keepsGiven (opts w) (opts (askDockerfile w).2)
  /\ ((askDockerfile w).1 = Ret false ->
      dockerfilePath (opts (askDockerfile w).2) = "").
Proof.
  destruct w as [o tr]. unfold askDockerfile. cmd_step. simpl.
  destruct (bool_decide_reflect (dockerfilePath o = "")) as [Hdf |]; simpl;
    [| split; [apply keepsGiven_refl | discriminate] ].
  destruct (bool_decide_reflect (image o = "")) as [Himg |]; simpl;
    [| split; [apply keepsGiven_refl | discriminate] ].
  cmd_step. simpl.
  destruct (CheckDockerEngineRunning (o_dockerEngine o)) as [derr |].
  - destruct (isDockerCommandNotFound derr);
      [| destruct (errorsAs TErrDockerDaemonNotResponsive derr) ];
      cmd_step; simpl; (split; [apply keepsGiven_refl | auto; discriminate]).
  - cmd_step. simpl.
    destruct (Dockerfile (sel o) _ _ _ _) as [df | err]; simpl; cmd_step;
      [| split; [apply keepsGiven_refl | discriminate] ].
    destruct (decide (df = DockerfilePromptUseImage)); cmd_step; simpl.
    + split; [apply keepsGiven_refl | auto].
    + split; [| discriminate].
      unfold keepsGiven. simpl. repeat split; auto.
      intros H. contradiction.
Qed.

Lemma askImage_keeps w :
  dockerfilePath (opts w) = "" -> keepsGiven (opts w) (opts (askImage w).2).
Proof.
  intros Hdf. destruct w as [o tr]. simpl in *. unfold askImage. cmd_step. simpl.
  destruct (decide (image o = "")) as [Himg |]; [| apply keepsGiven_refl].
  cmd_step. simpl.
  destruct (Get (prompt o) _ _) as [img | err]; simpl; cmd_step;
    [| apply keepsGiven_refl].
  unfold keepsGiven. simpl. repeat split; auto. intros H. contradiction.
Qed.

Lemma askSchedule_keeps : keeps askSchedule.
Proof.
  intros [o tr]. unfold askSchedule. cmd_step. simpl.
  destruct (decide (schedule o = "")) as [Hsched |]; [| apply keepsGiven_refl].
  cmd_step. simpl.
  destruct (Schedule (sel o) _ _) as [s | err]; simpl; cmd_step;
    [| apply keepsGiven_refl].
  unfold keepsGiven. simpl. repeat split; auto. intros H. contradiction.
Qed.

(** The Dockerfile question and, when it is answered with [false], the image
    question. *)
Lemma dockerfileThenImage_keeps {B} (k : unit -> Cmd.M initJobOpts event B) :
  (forall a, keeps (k a)) ->
  keeps (bind askDockerfile
           (fun dfSelected => bind (if negb dfSelected then askImage else ret tt) k)).
Proof.
  intros Hk w. destruct (askDockerfile_keeps w) as [Hkeeps Hfalse].
  unfold bind at 1.
  destruct (askDockerfile w) as [[[|] | e | why] w']; simpl in *;
    [ | | exact Hkeeps | exact Hkeeps ].
  - eapply keepsGiven_trans; [exact Hkeeps |].
    apply keepsGiven_bind; [apply keepsGiven_refl | exact Hk].
  - eapply keepsGiven_trans; [exact Hkeeps |].
    apply keepsGiven_bind; [apply askImage_keeps; auto | exact Hk].
Qed.

(** [Ask] fills in what is missing and leaves the rest: a name, a Dockerfile,
    an image or a schedule given by flag is the same after [Ask], however it
    ends, and [Ask] does not set both a Dockerfile and an image unless both
    were given. *)
Theorem Ask_keeps_given_flags w :
  let o := opts w in
  let o' := opts (Ask w).2 in
  (name o <> "" -> name o' = name o)
  /\ (dockerfilePath o <> "" -> dockerfilePath o' = dockerfilePath o)
  /\ (image o <> "" -> image o' = image o)
  /\ (schedule o <> "" -> schedule o' = schedule o)
  /\ (dockerfilePath o = "" \/ image o = "" ->
      dockerfilePath o' = "" \/ image o' = "").
Proof.
  change (keepsGiven (opts w) (opts (Ask w).2)).
  unfold Ask. apply keepsGiven_bind; [apply askJobName_keeps |].
  intros _ [o tr]. cmd_step. simpl.
  destruct (ReadWorkloadManifest (mftReader o) (name o)) as [localMft | err].
  - destruct (WorkloadType localMft) as [jobType | err]; simpl; cmd_step; simpl;
      [| apply keepsGiven_refl].
    unfold keepsGiven. simpl. repeat split; auto.
  - destruct (negb (errorsAs TErrFileNotExists err)
              && negb (errorsAs TErrWorkspaceNotFound err));
      [apply keepsGiven_refl |].
    match goal with
    | |- keepsGiven _ (opts (bind ?m ?k ?w1).2) => apply (keepsGiven_bind m k w1)
    end; [apply askJobType_keeps |].
    intros _. apply dockerfileThenImage_keeps.
    intros _ w1. apply keepsGiven_bind; [apply askSchedule_keeps |].
    intros _. apply keeps_ret.
Qed.

(** *** [Execute] *)

(** The health check [Execute] passes on, and what it does to get it: nothing
    without a Dockerfile; with one, the parsed HEALTHCHECK, and a warning when
    the parser reports an error. *)
Definition healthCheckFor (o : initJobOpts) : HealthCheck * list event :=
  if decide (dockerfilePath o = "") then (noHealthCheck, [])
  else
    let parsed := parseHealthCheck (initParser o (dockerfilePath o)) in
    (fst parsed,
     EvParseHealthCheck (dockerfilePath o)
       :: match snd parsed with
          | Some err =>
              [ EvLogWarning
                  ("Cannot parse the HEALTHCHECK instruction from the Dockerfile: "
                   +:+ Error err +:+ nl) ]
          | None => []
          end).

(** The properties of the job as the flags and answers give them. *)
Definition propsFor (o : initJobOpts) (hc : HealthCheck) : JobProps :=
  {| jp_App := appName o;
     jp_Name := name o;
     jp_Type := wkldType o;
     jp_DockerfilePath := dockerfilePath o;
     jp_Image := image o;
     jp_Platform := platform o;
     jp_Schedule := schedule o;
     jp_HealthCheck := hc;
     jp_Timeout := timeout o;
     jp_Retries := retries o |}.

(** The call on [init.Job] that ends [Execute]. *)
Definition initJob (hc : HealthCheck) (w : world initJobOpts event)
  : outcome unit * world initJobOpts event :=
  let o := opts w in
  match Job (init o) (propsFor o hc) with
  | Ok path =>
      (Ret tt,
       {| opts := set_manifestPath path o;
          trace := trace w ++ [ EvInitJob (propsFor o hc) ] |})
  | Err err =>
      (Fail err, {| opts := o; trace := trace w ++ [ EvInitJob (propsFor o hc) ] |})
  end.

Lemma Execute_run w :
  let o := opts w in
  let w1 := addEvents w (healthCheckFor o).2 in
  Execute w =
    if decide (image o = "") then
      match legitimizePlatform (o_dockerEngine o) (wkldType o) with
      | Err err => (Fail err, addEvents w1 [ EvLegitimizePlatform (wkldType o) ])
      | Ok p =>
          initJob (healthCheckFor o).1
            {| opts := if decide (p = "") then o else set_platform (Some p) o;
               trace := trace w1 ++ [ EvLegitimizePlatform (wkldType o) ] |}
      end
    else initJob (healthCheckFor o).1 w1.
Proof.
  destruct w as [o tr]. simpl. unfold Execute, healthCheckFor, initJob, propsFor.
  cmd_step. simpl.
  destruct (decide (dockerfilePath o = "")) as [Hdf | Hdf]; simpl;
    [ | destruct (parseHealthCheck (initParser o (dockerfilePath o))) as [hc [perr |]] ];
    repeat (progress (simpl; cmd_step)).
  all: destruct (decide (image o = "")) as [Himg | Himg];
    repeat (progress (simpl; cmd_step)).
  all: try (destruct (legitimizePlatform (o_dockerEngine o) (wkldType o)) as [p | err];
            repeat (progress (simpl; cmd_step));
            [ destruct (decide (p = "")); repeat (progress (simpl; cmd_step)) | ]).
  all: try (match goal with
            | |- context [ Job ?i ?props ] => destruct (Job i props)
            end; repeat (progress (simpl; cmd_step))).
  all: unfold addEvents; simpl; rewrite ?app_nil_r, <- ?app_assoc; reflexivity.
Qed.

(** With an image given, [Execute] leaves Docker alone: it does not ask for
    the platform, keeps [o.platform] as it is, and initializes the job with the
    flags as they are; on success [o.manifestPath] is the path it got back. *)
Theorem Execute_with_image_leaves_docker_alone w :
  image (opts w) <> "" ->
  let o := opts w in
  let hc := (healthCheckFor o).1 in
  Execute w =
    match Job (init o) (propsFor o hc) with
    | Ok path =>
        (Ret tt,
         {| opts := set_manifestPath path o;
            trace := trace w ++ (healthCheckFor o).2 ++ [ EvInitJob (propsFor o hc) ] |})
    | Err err =>
        (Fail err,
         {| opts := o;
            trace := trace w ++ (healthCheckFor o).2 ++ [ EvInitJob (propsFor o hc) ] |})
    end.
Proof.
  intros Himg o hc. subst o hc. rewrite Execute_run. simpl.
  destruct (decide (image (opts w) = "")); [contradiction |].
  unfold initJob, addEvents. simpl.
  destruct (Job (init (opts w)) _); rewrite <- ?app_assoc; reflexivity.
Qed.

(** The receiver once the platform check has answered [p]: an empty answer
    leaves [o.platform] as it is. *)
Definition withPlatform (o : initJobOpts) (p : string) : initJobOpts :=
  if decide (p = "") then o else set_platform (Some p) o.

(** An error [Execute] returns is exactly the error of the platform check,
    which is made only when no image is given, or, once that check has passed
    or has been skipped, the error of [init.Job] on the properties of the job.
    A HEALTHCHECK that cannot be parsed is never that error: right after the
    parse [Execute] logs a warning with the parser's error, and its next call
    is the platform check or [init.Job]. *)
Theorem Execute_fails_only_on_platform_or_init w :
  let o := opts w in
  let parsed := parseHealthCheck (initParser o (dockerfilePath o)) in
  let hc := (healthCheckFor o).1 in
  (forall err,
     (Execute w).1 = Fail err <->
     if decide (image o = "") then
       match legitimizePlatform (o_dockerEngine o) (wkldType o) with
       | Err e => e = err
       | Ok p => Job (init o) (propsFor (withPlatform o p) hc) = Err err
       end
     else Job (init o) (propsFor o hc) = Err err)
  /\ (forall perr,
        dockerfilePath o <> "" ->
        parsed.2 = Some perr ->
        exists rest,
          trace (Execute w).2 =
            trace w
              ++ EvParseHealthCheck (dockerfilePath o)
              :: EvLogWarning
                   ("Cannot parse the HEALTHCHECK instruction from the Dockerfile: "
                    +:+ Error perr +:+ nl)
              :: (if decide (image o = "") then EvLegitimizePlatform (wkldType o)
                  else EvInitJob (propsFor o parsed.1))
              :: rest).
Proof.
  intros o parsed hc. subst o parsed hc. rewrite Execute_run. split.
  - intros err. unfold initJob, withPlatform. simpl.
    destruct (decide (image (opts w) = "")) as [Himg | Himg].
    + destruct (legitimizePlatform (o_dockerEngine (opts w)) (wkldType (opts w)))
        as [p | perr]; simpl.
      * destruct (decide (p = "")); simpl;
          match goal with
          | |- context [ Job ?i ?props ] => destruct (Job i props)
          end; simpl; split; congruence.
      * split; congruence.
    + match goal with
      | |- context [ Job ?i ?props ] => destruct (Job i props)
      end; simpl; split; congruence.
  - intros perr Hdf Hparse. unfold healthCheckFor, initJob. simpl.
    destruct (decide (dockerfilePath (opts w) = "")); [contradiction |].
    rewrite Hparse. simpl.
    destruct (decide (image (opts w) = "")) as [Himg | Himg].
    + destruct (legitimizePlatform (o_dockerEngine (opts w)) (wkldType (opts w)))
        as [p | e]; simpl.
      * match goal with
        | |- context [ Job ?i ?props ] => destruct (Job i props)
        end; simpl; eexists; rewrite <- ?app_assoc; simpl; reflexivity.
      * exists []. rewrite <- ?app_assoc. reflexivity.
    + match goal with
      | |- context [ Job ?i ?props ] => destruct (Job i props)
      end; simpl; exists []; rewrite <- ?app_assoc; reflexivity.
Qed.
End Command.

(** *** Concrete runs of the job init command *)

Definition mockJobOpts (wlType df img : string)
    (manifestAnswer : result workloadManifest) (dockerAnswer : option error)
  : @initJobOpts unit unit :=
  {| appName := "badgoose";
     name := "reaper";
     wkldType := wlType;
     dockerfilePath := df;
     image := img;
     timeout := "";
     retries := 3;
     schedule := "@daily";
     fs := {| Stat := fun _ => None |};
     o_store := {| GetJob := fun _ _ => Some (Typed TErrNoSuchJob "no such job") |};
     init := {| Job := fun props => Ok ("copilot/" +:+ jp_Name props +:+ "/manifest.yml") |};
     prompt := {| Get := fun _ _ => Ok "alpine:latest" |};
     sel := {| Dockerfile := fun _ _ _ _ => Ok "./Dockerfile";
               Schedule := fun _ _ => Ok "@hourly" |};
     o_dockerEngine := {| CheckDockerEngineRunning := dockerAnswer |};
     mftReader := {| ReadWorkloadManifest := fun _ => manifestAnswer |};
     manifestPath := "";
     platform := None;
     initParser := fun _ => tt |}.

Definition noManifest : result workloadManifest :=
  Err (Wrap "read manifest" (Typed TErrFileNotExists "file does not exist")).

Definition daemonDown : error :=
  Typed TErrDockerDaemonNotResponsive "docker daemon is not responsive".

(** A run with no name given: the prompt answers "reaper" to the name
    question and [imageAnswer] to the image question. *)
Definition mockUnnamedJobOpts (sched : string)
    (imageAnswer : result string)
    (manifestAnswer : result workloadManifest) (dockerAnswer : option error)
  : @initJobOpts unit unit :=
  {| appName := "badgoose";
     name := "";
     wkldType := "";
     dockerfilePath := "";
     image := "";
     timeout := "";
     retries := 3;
     schedule := sched;
     fs := {| Stat := fun _ => None |};
     o_store := {| GetJob := fun _ _ => Some (Typed TErrNoSuchJob "no such job") |};
     init := {| Job := fun props => Ok ("copilot/" +:+ jp_Name props +:+ "/manifest.yml") |};
     prompt := {| Get := fun message _ =>
                    if decide (message = "image?") then imageAnswer else Ok "reaper" |};
     sel := {| Dockerfile := fun _ _ _ _ => Ok "./Dockerfile";
               Schedule := fun _ _ => Ok "@hourly" |};
     o_dockerEngine := {| CheckDockerEngineRunning := dockerAnswer |};
     mftReader := {| ReadWorkloadManifest := fun _ => manifestAnswer |};
     manifestPath := "";
     platform := None;
     initParser := fun _ => tt |}.

Definition freshJobWorld (o : @initJobOpts unit unit)
  : world (@initJobOpts unit unit) (@event unit) :=
  {| opts := o; trace := [] |}.

Definition runAsk (o : @initJobOpts unit unit)
  : outcome unit * world (@initJobOpts unit unit) (@event unit) :=
  Ask "Scheduled Job" "Use an existing image instead" (fun _ => false)
    (fun a b => a +:+ b) (fun a b => a +:+ b) "image?" "image help"
    (fun s => s) (fun s => s) "dockerfile help" "path help" "schedule help"
    (fun s => s) (fun s => s) (fun s => s) (freshJobWorld o).

Definition runJobExecute (o : @initJobOpts unit unit)
  : outcome unit * world (@initJobOpts unit unit) (@event unit) :=
  Execute tt (fun _ => (tt, Some (New "no HEALTHCHECK")))
    (fun _ _ => Ok "linux/amd64") (freshJobWorld o).

Lemma Ask_skips_configuration_for_existing_manifest_witness :
  wkldType (opts (runAsk (mockJobOpts "Backend Service" "" ""
                            (Ok {| WorkloadType := Ok "Scheduled Job" |}) None)).2)
  = "Scheduled Job"
  /\ length (trace (runAsk (mockJobOpts "Backend Service" "" ""
                              (Ok {| WorkloadType := Ok "Scheduled Job" |}) None)).2)
     = 2.
Proof.
  unfold runAsk.
  rewrite (Ask_skips_configuration_for_existing_manifest
             "Scheduled Job" "Use an existing image instead" (fun _ => false)
             (fun a b => a +:+ b) (fun a b => a +:+ b) "image?" "image help"
             (fun s => s) (fun s => s) "dockerfile help" "path help" "schedule help"
             (fun s => s) (fun s => s) (fun s => s)
             (freshJobWorld (mockJobOpts "Backend Service" "" ""
                               (Ok {| WorkloadType := Ok "Scheduled Job" |}) None))
             {| WorkloadType := Ok "Scheduled Job" |} "Scheduled Job");
    [ split; reflexivity | discriminate | reflexivity | reflexivity ].
Defined.

Lemma Ask_stops_on_unreadable_manifest_witness :
  (runAsk (mockUnnamedJobOpts "" (Ok "alpine:latest")
             (Err (New "permission denied")) None)).1
  = Fail (Wrap "read manifest file for job reaper" (New "permission denied"))
  /\ trace (runAsk (mockUnnamedJobOpts "" (Ok "alpine:latest")
                      (Err (New "permission denied")) None)).2
     = [ EvPromptGet "namejob" "jobbadgoose" "Job name:";
         EvGetJob "badgoose" "reaper";
         EvReadWorkloadManifest "reaper" ].
Proof.
  unfold runAsk.
  rewrite (Ask_stops_on_unreadable_manifest
             "Scheduled Job" "Use an existing image instead" (fun _ => false)
             (fun a b => a +:+ b) (fun a b => a +:+ b) "image?" "image help"
             (fun s => s) (fun s => s) "dockerfile help" "path help" "schedule help"
             (fun s => s) (fun s => s) (fun s => s)
             (freshJobWorld (mockUnnamedJobOpts "" (Ok "alpine:latest")
                               (Err (New "permission denied")) None))
             _ _ (New "permission denied")
             (NamePrompted (fun a b => a +:+ b) (fun a b => a +:+ b) (fun s => s)
                (freshJobWorld (mockUnnamedJobOpts "" (Ok "alpine:latest")
                                  (Err (New "permission denied")) None))
                "reaper" (Typed TErrNoSuchJob "no such job")
                eq_refl eq_refl eq_refl eq_refl));
    [ split; reflexivity | reflexivity | reflexivity | reflexivity ].
Defined.

Lemma Ask_falls_back_to_image_without_docker_witness :
  (runAsk (mockUnnamedJobOpts "" (Ok "alpine:latest") noManifest (Some daemonDown))).1
    = Ret tt
  /\ image (opts (runAsk (mockUnnamedJobOpts "" (Ok "alpine:latest") noManifest
                            (Some daemonDown))).2)
     = "alpine:latest"
  /\ schedule (opts (runAsk (mockUnnamedJobOpts "" (Ok "alpine:latest") noManifest
                               (Some daemonDown))).2)
     = "@hourly"
  /\ (runAsk (mockUnnamedJobOpts "@daily" (Err (New "interrupted")) noManifest
                (Some daemonDown))).1
     = Fail (Wrap "get image location" (New "interrupted")).
Proof.
  unfold runAsk.
  rewrite (Ask_falls_back_to_image_without_docker
             "Scheduled Job" "Use an existing image instead" (fun _ => false)
             (fun a b => a +:+ b) (fun a b => a +:+ b) "image?" "image help"
             (fun s => s) (fun s => s) "dockerfile help" "path help" "schedule help"
             (fun s => s) (fun s => s) (fun s => s)
             (freshJobWorld (mockUnnamedJobOpts "" (Ok "alpine:latest") noManifest
                               (Some daemonDown)))
             _ _
             (Wrap "read manifest" (Typed TErrFileNotExists "file does not exist"))
             daemonDown
             (NamePrompted (fun a b => a +:+ b) (fun a b => a +:+ b) (fun s => s)
                (freshJobWorld (mockUnnamedJobOpts "" (Ok "alpine:latest") noManifest
                                  (Some daemonDown)))
                "reaper" (Typed TErrNoSuchJob "no such job")
                eq_refl eq_refl eq_refl eq_refl));
    [ | reflexivity | reflexivity | reflexivity | reflexivity | reflexivity
      | reflexivity ].
  rewrite (Ask_falls_back_to_image_without_docker
             "Scheduled Job" "Use an existing image instead" (fun _ => false)
             (fun a b => a +:+ b) (fun a b => a +:+ b) "image?" "image help"
             (fun s => s) (fun s => s) "dockerfile help" "path help" "schedule help"
             (fun s => s) (fun s => s) (fun s => s)
             (freshJobWorld (mockUnnamedJobOpts "@daily" (Err (New "interrupted"))
                               noManifest (Some daemonDown)))
             _ _
             (Wrap "read manifest" (Typed TErrFileNotExists "file does not exist"))
             daemonDown
             (NamePrompted (fun a b => a +:+ b) (fun a b => a +:+ b) (fun s => s)
                (freshJobWorld (mockUnnamedJobOpts "@daily" (Err (New "interrupted"))
                                  noManifest (Some daemonDown)))
                "reaper" (Typed TErrNoSuchJob "no such job")
                eq_refl eq_refl eq_refl eq_refl));
    [ repeat split | reflexivity | reflexivity | reflexivity | reflexivity
      | reflexivity | reflexivity ].
Defined.

Lemma Execute_with_image_leaves_docker_alone_witness :
  (runJobExecute (mockJobOpts "Scheduled Job" "" "alpine:latest" noManifest None)).1
    = Ret tt
  /\ manifestPath
       (opts (runJobExecute
                (mockJobOpts "Scheduled Job" "" "alpine:latest" noManifest None)).2)
     = "copilot/reaper/manifest.yml"
  /\ platform
       (opts (runJobExecute
                (mockJobOpts "Scheduled Job" "" "alpine:latest" noManifest None)).2)
     = None.
Proof.
  unfold runJobExecute.
  rewrite (Execute_with_image_leaves_docker_alone tt
             (fun _ => (tt, Some (New "no HEALTHCHECK")))
             (fun _ _ => Ok "linux/amd64")
             (freshJobWorld
                (mockJobOpts "Scheduled Job" "" "alpine:latest" noManifest None)));
    [ repeat split | discriminate ].
Defined.

(** A Dockerfile whose HEALTHCHECK cannot be parsed: the job is initialized
    all the same, after the warning and the platform check. *)
Example Execute_unparsable_healthcheck :
  (runJobExecute (mockJobOpts "Scheduled Job" "./Dockerfile" "" noManifest None)).1
    = Ret tt
  /\ firstn 3
       (trace (runJobExecute
                 (mockJobOpts "Scheduled Job" "./Dockerfile" "" noManifest None)).2)
     = [ EvParseHealthCheck "./Dockerfile";
         EvLogWarning
           ("Cannot parse the HEALTHCHECK instruction from the Dockerfile: no HEALTHCHECK"
            +:+ nl);
         EvLegitimizePlatform "Scheduled Job" ]
  /\ platform
       (opts (runJobExecute
                (mockJobOpts "Scheduled Job" "./Dockerfile" "" noManifest None)).2)
     = Some "linux/amd64".
Proof. vm_compute. repeat split. Qed.

End JobInit.

(** ** The deploy command ([deployOpts], in the same source file) *)

Module Deploy.
Import GoErr Cmd.

Definition svcWkldType : string := "svc".
Definition jobWkldType : string := "job".

(** [actionCommand]: the command of a job or of a service. *)
Record actionCommand : Type :=
  { cmd_Ask : option error;
    cmd_Validate : option error;
    cmd_Execute : option error;
    cmd_RecommendActions : option error }.

(** [config.Workload], of which only [Type] is used. *)
Record Workload : Type :=
  { wl_Type : string }.

Record wsSelector : Type :=
  { sel_Workload : string -> string -> result string }.
Record store : Type :=
  { GetWorkload : string -> string -> result Workload }.

(** [deployOpts], with the fields of [deployWkldVars] it uses inlined.
    [setupDeployCmd] is a function of the receiver and the workload type that
    returns nothing: it acts by assigning to the receiver. The fields it may
    read and assign are gathered in [deployFields], and the function maps
    their values before the call to their values after it. *)
Record deployFields : Type :=
  { appName : string;
    name : string;
    deployWkld : option actionCommand;
    sel : wsSelector;
    o_store : store;
    wlType : string }.

Record deployOpts : Type :=
  { fields :> deployFields;
    setupDeployCmd : deployFields -> string -> deployFields }.

Definition set_fields (f : deployFields) (o : deployOpts) : deployOpts :=
  {| fields := f; setupDeployCmd := setupDeployCmd o |}.

Definition set_name (n : string) (o : deployOpts) : deployOpts :=
  set_fields
    {| appName := appName o; name := n; deployWkld := deployWkld o;
       sel := sel o; o_store := o_store o; wlType := wlType o |} o.
Definition set_wlType (t : string) (o : deployOpts) : deployOpts :=
  set_fields
    {| appName := appName o; name := name o; deployWkld := deployWkld o;
       sel := sel o; o_store := o_store o; wlType := t |} o.

Inductive event : Type :=
| EvSelectWorkload (msg help : string)
| EvGetWorkload (appN wlN : string)
| EvSetupDeployCmd (workloadType : string)
| EvAsk
| EvValidate
| EvExecute
| EvRecommendActions.

Section Command.

(** [strings.ToLower] and [strings.Contains]. *)
Variable ToLower : string -> string.
Variable Contains : string -> string -> bool.

Local Abbreviation M := (Cmd.M deployOpts event).

Local Notation "'let*' x ':=' c 'in' k" := (bind c (fun x => k))
  (at level 10, x name, c at level 100, k at level 200).
Local Notation "c ;;; k" := (bind c (fun _ => k))
  (at level 100, k at level 200, right associativity).

Definition same (err : error) : error := err.

(** A method call on [o.deployWkld]; on a nil interface it panics. *)
Definition onCommand (e : event) (method : actionCommand -> option error)
    (wrap : error -> error) : M unit :=
  let* o := (self : M deployOpts) in
  match deployWkld o with
  | None => panic "invalid memory address or nil pointer dereference"
  | Some c =>
      let* err := call e (method c) in
      orFail err wrap
  end.

(** [askName] *)
Definition askName : M unit :=
  let* o := (self : M deployOpts) in
  if decide (name o = "") then
    let* r := call (EvSelectWorkload "Select a service or job in your workspace" "")
                   (sel_Workload (sel o) "Select a service or job in your workspace" "") in
    let* n := orReturn r (Wrap "select service or job") in
    assign (set_name n)
  else ret tt.

(** [loadWkldCmd] *)
Definition loadWkldCmd : M unit :=
  let* o := (self : M deployOpts) in
  let* r := call (EvGetWorkload (appName o) (name o))
                 (GetWorkload (o_store o) (appName o) (name o)) in
  let* wl := orReturn r
               (Wrap ("retrieve " +:+ appName o +:+ " from application " +:+ name o)) in
  emit (EvSetupDeployCmd (wl_Type wl)) ;;;
  assign (fun o => set_fields (setupDeployCmd o o (wl_Type wl)) o) ;;;
  if Contains (ToLower (wl_Type wl)) jobWkldType then
    assign (set_wlType jobWkldType)
  else
    assign (set_wlType svcWkldType).

(** [loadWkld] *)
Definition loadWkld : M unit :=
  loadWkldCmd ;;;
  let* o := (self : M deployOpts) in
  onCommand EvAsk cmd_Ask (Wrap ("ask " +:+ wlType o +:+ " deploy")) ;;;
  onCommand EvValidate cmd_Validate (Wrap ("validate " +:+ wlType o +:+ " deploy")).

(** [Run] *)
Definition Run : M unit :=
  askName ;;;
  loadWkld ;;;
  let* o := (self : M deployOpts) in
  onCommand EvExecute cmd_Execute (Wrap ("execute " +:+ wlType o +:+ " deploy")) ;;;
  onCommand EvRecommendActions cmd_RecommendActions same.


(** *** [Run]: the life cycle of the workload command *)

Import CmdFacts.

Implicit Types w : world deployOpts event.


Definition lifeCycle : list event :=
  [ EvAsk; EvValidate; EvExecute; EvRecommendActions ].

(** The name of the workload kind in the errors of [Run]. *)
Definition kindOf (workloadType : string) : string :=
  if Contains (ToLower workloadType) jobWkldType then jobWkldType else svcWkldType.

(** The receiver once [loadWkldCmd] has set it up for a workload. *)
Definition loaded (o : deployOpts) (wl : Workload) : deployOpts :=
  set_wlType (kindOf (wl_Type wl))
    (set_fields (setupDeployCmd o o (wl_Type wl)) o).

Lemma askName_given w : name (opts w) <> "" -> askName w = (Ret tt, w).
Proof.
  intros Hname. unfold askName. cmd_step.
  destruct (decide (name (opts w) = "")); [contradiction | reflexivity].
Qed.

Lemma loadWkldCmd_found w wl :
  GetWorkload (o_store (opts w)) (appName (opts w)) (name (opts w)) = Ok wl ->
  loadWkldCmd w =
    (Ret tt,
     {| opts := loaded (opts w) wl;
        trace := trace w
          ++ [ EvGetWorkload (appName (opts w)) (name (opts w));
               EvSetupDeployCmd (wl_Type wl) ] |}).
Proof.
  intros Hget. destruct w as [o tr]. simpl in *.
  unfold loadWkldCmd, loaded, kindOf. cmd_step. simpl. rewrite Hget. simpl. cmd_step.
  destruct (Contains (ToLower (wl_Type wl)) jobWkldType);
    cmd_step; unfold addEvents; simpl; rewrite <- ?app_assoc; reflexivity.
Qed.

Lemma onCommand_run e method wrap w c :
  deployWkld (opts w) = Some c ->
  onCommand e method wrap w =
    (match method c with
     | Some err => Fail (wrap err)
     | None => Ret tt
     end, addEvents w [ e ]).
Proof.
  intros Hc. unfold onCommand. cmd_step. rewrite Hc. cmd_step.
  destruct (method c); reflexivity.
Qed.

Lemma onCommand_nil e method wrap w :
  deployWkld (opts w) = None ->
  onCommand e method wrap w =
    (Panic "invalid memory address or nil pointer dereference", w).
Proof. intros Hc. unfold onCommand. cmd_step. rewrite Hc. reflexivity. Qed.

(** [Run] after [askName]. *)
Definition afterAskName : Cmd.M deployOpts event unit :=
  loadWkld ;;;
  let* o := (self : Cmd.M deployOpts event deployOpts) in
  onCommand EvExecute cmd_Execute (Wrap ("execute " +:+ wlType o +:+ " deploy")) ;;;
  onCommand EvRecommendActions cmd_RecommendActions same.

(** What the workload command [c] does to a run for a workload of kind
    [kind]: the four steps in order, up to the first that fails. *)
Definition lifeCycleOf (c : actionCommand) (kind : string) w
  : outcome unit * world deployOpts event :=
  match cmd_Ask c with
  | Some err => (Fail (Wrap ("ask " +:+ kind +:+ " deploy") err), addEvents w [ EvAsk ])
  | None =>
      match cmd_Validate c with
      | Some err =>
          (Fail (Wrap ("validate " +:+ kind +:+ " deploy") err),
           addEvents w [ EvAsk; EvValidate ])
      | None =>
          match cmd_Execute c with
          | Some err =>
              (Fail (Wrap ("execute " +:+ kind +:+ " deploy") err),
               addEvents w [ EvAsk; EvValidate; EvExecute ])
          | None =>
              (match cmd_RecommendActions c with
               | Some err => Fail err
               | None => Ret tt
               end, addEvents w lifeCycle)
          end
      end
  end.

Definition afterLoad w (wl : Workload) : world deployOpts event :=
  {| opts := loaded (opts w) wl;
     trace := trace w ++ [ EvGetWorkload (appName (opts w)) (name (opts w));
                           EvSetupDeployCmd (wl_Type wl) ] |}.

Lemma afterAskName_loaded w wl c :
  GetWorkload (o_store (opts w)) (appName (opts w)) (name (opts w)) = Ok wl ->
  deployWkld (loaded (opts w) wl) = Some c ->
  afterAskName w = lifeCycleOf c (kindOf (wl_Type wl)) (afterLoad w wl).
Proof.
  intros Hget Hc. unfold afterAskName, loadWkld, lifeCycleOf, afterLoad.
  cmd_step.
  rewrite cmd_bind_run with (1 := loadWkldCmd_found w wl Hget).
  cmd_step.
  erewrite cmd_bind_run_or_stop by (apply onCommand_run; exact Hc).
  destruct (cmd_Ask c); [reflexivity |].
  cmd_step.
  erewrite cmd_bind_run_or_stop by (apply onCommand_run; exact Hc).
  destruct (cmd_Validate c); [cmd_step; reflexivity |].
  cmd_step.
  erewrite cmd_bind_run_or_stop by (apply onCommand_run; exact Hc).
  destruct (cmd_Execute c); [cmd_step; reflexivity |].
  cmd_step.
  rewrite onCommand_run with (c := c) by exact Hc.
  unfold same. cmd_step. destruct (cmd_RecommendActions c); reflexivity.
Qed.

Lemma afterAskName_no_command w wl :
  GetWorkload (o_store (opts w)) (appName (opts w)) (name (opts w)) = Ok wl ->
  deployWkld (loaded (opts w) wl) = None ->
  afterAskName w =
    (Panic "invalid memory address or nil pointer dereference", afterLoad w wl).
Proof.
  intros Hget Hc. unfold afterAskName, loadWkld, afterLoad.
  cmd_step.
  rewrite cmd_bind_run with (1 := loadWkldCmd_found w wl Hget).
  cmd_step.
  erewrite cmd_bind_run_or_stop by (apply onCommand_nil; exact Hc).
  reflexivity.
Qed.

Lemma afterAskName_not_found w err :
  GetWorkload (o_store (opts w)) (appName (opts w)) (name (opts w)) = Err err ->
  afterAskName w =
    (Fail (Wrap ("retrieve " +:+ appName (opts w) +:+ " from application "
                 +:+ name (opts w)) err),
     addEvents w [ EvGetWorkload (appName (opts w)) (name (opts w)) ]).
Proof.
  intros Hget. unfold afterAskName, loadWkld, loadWkldCmd.
  cmd_step. simpl. rewrite Hget. reflexivity.
Qed.









(** When the command's [Validate] fails, [Run] returns its error as
    "validate job deploy: ..." or "validate svc deploy: ...", by whether the
    lowercased type of the workload contains "job", and [Execute] is not
    called. *)
Theorem Run_does_not_execute_an_invalid_deployment w wl c err :
  name (opts w) <> "" ->
  GetWorkload (o_store (opts w)) (appName (opts w)) (name (opts w)) = Ok wl ->
  deployWkld (loaded (opts w) wl) = Some c ->
  cmd_Ask c = None ->
  cmd_Validate c = Some err ->
  let o := opts w in
  Run w =
    (Fail (Wrap ("validate "
                 +:+ (if Contains (ToLower (wl_Type wl)) "job" then "job" else "svc")
                 +:+ " deploy") err),
     {| opts := loaded o wl;
        trace := trace w
          ++ [ EvGetWorkload (appName o) (name o); EvSetupDeployCmd (wl_Type wl);
               EvAsk; EvValidate ] |}).
Proof.
  intros Hname Hget Hc Hask Hvalidate o. subst o.
  change (Run w) with (bind askName (fun _ => afterAskName) w).
  rewrite cmd_bind_run with (1 := askName_given w Hname).
  rewrite (afterAskName_loaded w wl c Hget Hc).
  unfold lifeCycleOf. rewrite Hask, Hvalidate.
  unfold afterLoad, addEvents, kindOf, jobWkldType, svcWkldType. simpl.
  rewrite <- app_assoc. reflexivity.
Qed.

(** A workload for which [setupDeployCmd] leaves [o.deployWkld] nil makes
    [Run] panic on the nil command, right after the store is read and before
    any step of the command. *)
Theorem Run_panics_without_a_command w wl :
  name (opts w) <> "" ->
  GetWorkload (o_store (opts w)) (appName (opts w)) (name (opts w)) = Ok wl ->
  deployWkld (setupDeployCmd (opts w) (opts w) (wl_Type wl)) = None ->
  exists why,
    Run w =
      (Panic why,
       {| opts := loaded (opts w) wl;
          trace := trace w
            ++ [ EvGetWorkload (appName (opts w)) (name (opts w));
                 EvSetupDeployCmd (wl_Type wl) ] |}).
Proof.
  intros Hname Hget Hnil. eexists.
  change (Run w) with (bind askName (fun _ => afterAskName) w).
  rewrite cmd_bind_run with (1 := askName_given w Hname).
  rewrite (afterAskName_no_command w wl Hget) by exact Hnil.
  reflexivity.
Qed.

(** When the store cannot give the workload, [Run] stops there, with no
    command set up or called. Its error reads "retrieve <application> from
    application <workload>: ...": the two names are passed to the format in
    this order. *)
Theorem Run_stops_when_workload_is_not_in_store w err :
  name (opts w) <> "" ->
  GetWorkload (o_store (opts w)) (appName (opts w)) (name (opts w)) = Err err ->
  Run w =
    (Fail (Wrap ("retrieve " +:+ appName (opts w) +:+ " from application "
                 +:+ name (opts w)) err),
     {| opts := opts w;
        trace := trace w ++ [ EvGetWorkload (appName (opts w)) (name (opts w)) ] |}).
Proof.
  intros Hname Hget.
  change (Run w) with (bind askName (fun _ => afterAskName) w).
  rewrite cmd_bind_run with (1 := askName_given w Hname).
  apply afterAskName_not_found, Hget.
Qed.
End Command.

(** *** Concrete runs of the deploy command *)

(** [strings.ToLower] and [strings.Contains] on ASCII text. *)
Definition lowerAscii (c : Ascii.ascii) : Ascii.ascii :=
  let n := Ascii.nat_of_ascii c in
  if Nat.leb 65 n && Nat.leb n 90 then Ascii.ascii_of_nat (n + 32) else c.

Fixpoint toLowerAscii (s : string) : string :=
  match s with
  | EmptyString => EmptyString
  | String c rest => String (lowerAscii c) (toLowerAscii rest)
  end.

Fixpoint containsSubstring (s sub : string) : bool :=
  if String.prefix sub s then true
  else
    match s with
    | EmptyString => false
    | String _ rest => containsSubstring rest sub
    end.

Definition mockCommand (validateAnswer : option error) : actionCommand :=
  {| cmd_Ask := None;
     cmd_Validate := validateAnswer;
     cmd_Execute := None;
     cmd_RecommendActions := None |}.

Definition mockDeployOpts (found : result Workload)
    (setup : string -> option actionCommand) : deployOpts :=
  {| fields :=
       {| appName := "badgoose";
          name := "mailer";
          deployWkld := None;
          sel := {| sel_Workload := fun _ _ => Ok "mailer" |};
          o_store := {| GetWorkload := fun _ _ => found |};
          wlType := "" |};
     setupDeployCmd := fun f t =>
       {| appName := appName f; name := name f; deployWkld := setup t;
          sel := sel f; o_store := o_store f; wlType := wlType f |} |}.

Definition runDeploy (o : deployOpts) : outcome unit * world deployOpts event :=
  Run toLowerAscii containsSubstring {| opts := o; trace := [] |}.

Lemma Run_does_not_execute_an_invalid_deployment_witness :
  (runDeploy (mockDeployOpts (Ok {| wl_Type := "Scheduled Job" |})
                (fun _ => Some (mockCommand (Some (New "no environment")))))).1
  = Fail (Wrap "validate job deploy" (New "no environment"))
  /\ trace (runDeploy (mockDeployOpts (Ok {| wl_Type := "Scheduled Job" |})
                         (fun _ => Some (mockCommand (Some (New "no environment")))))).2
     = [ EvGetWorkload "badgoose" "mailer";
         EvSetupDeployCmd "Scheduled Job"; EvAsk; EvValidate ].
Proof.
  unfold runDeploy.
  rewrite (Run_does_not_execute_an_invalid_deployment toLowerAscii containsSubstring
             {| opts := mockDeployOpts (Ok {| wl_Type := "Scheduled Job" |})
                          (fun _ => Some (mockCommand (Some (New "no environment"))));
                trace := [] |}
             {| wl_Type := "Scheduled Job" |}
             (mockCommand (Some (New "no environment")))
             (New "no environment"));
    [ split; reflexivity | discriminate | reflexivity | reflexivity | reflexivity
      | reflexivity ].
Defined.

Lemma Run_panics_without_a_command_witness :
  exists why,
    (runDeploy (mockDeployOpts (Ok {| wl_Type := "Lambda Function" |}) (fun _ => None))).1 = Panic why.
Proof.
  destruct (Run_panics_without_a_command toLowerAscii containsSubstring
              {| opts := mockDeployOpts (Ok {| wl_Type := "Lambda Function" |}) (fun _ => None);
                 trace := [] |}
              {| wl_Type := "Lambda Function" |})
    as [why Hrun]; [ discriminate | reflexivity | reflexivity |].
  exists why. unfold runDeploy. rewrite Hrun. reflexivity.
Defined.

Lemma Run_stops_when_workload_is_not_in_store_witness :
  runDeploy (mockDeployOpts (Err (New "no such workload")) (fun _ => None))
  = (Fail (Wrap "retrieve badgoose from application mailer" (New "no such workload")),
     {| opts := mockDeployOpts (Err (New "no such workload")) (fun _ => None);
        trace := [ EvGetWorkload "badgoose" "mailer" ] |}).
Proof.
  unfold runDeploy.
  rewrite (Run_stops_when_workload_is_not_in_store toLowerAscii containsSubstring
             {| opts := mockDeployOpts (Err (New "no such workload")) (fun _ => None);
                trace := [] |}
             (New "no such workload"));
    [ reflexivity | discriminate | reflexivity ].
Defined.

End Deploy.
